(** * Simplifying Conditional Expressions: the notebook's examples, verified

    The code cells of
    [3. Refactorings/4_simplifying_conditional_expressions.ipynb], twice:

    - as functions ([Decompose], [Consolidate], [Fragments],
      [GuardClauses], [NullObject]): every "bad"/"good" pair is
      translated function by function and the pairs are compared;
    - as syntax ([Ast], [Notebook]) with an interpreter, for what is
      said about the code itself (no loop, no [assert], no [try]) and
      about its running to completion.

    Python integers are [Z], strings are [string], floats are IEEE 754
    binary64 ([PrimFloat.float]); a function that falls off its end
    returns [None], and attribute access on [None] raises
    [AttributeError].  The other notebook of the repository (feature
    engineering) has no code cell. *)

From Stdlib Require Import ZArith Bool List String Lia.
From Stdlib Require Import Floats.
Import ListNotations.

(* Decimal literals such as 0.8 denote the nearest binary64, as in Python. *)
Set Warnings "-inexact-float,-register-all".

Local Open Scope string_scope.
Local Open Scope Z_scope.

(** ** Outcomes

    What a call can end with: a value, or a raised exception. *)

Inductive exn : Type :=
| AttributeError
| OverflowError
| TypeError
| AssertionError.

Inductive result (A : Type) : Type :=
| Ok (a : A)
| Raise (e : exn).
Arguments Ok {A} a.
Arguments Raise {A} e.

(** ** 1. Decompose Conditional *)

Module Decompose.

(** The attributes of a [datetime.datetime]. *)
Record datetime : Type := mk_datetime
  { year : Z
  ; month : Z
  ; day : Z
  ; hour : Z
  ; minute : Z
  ; second : Z
  ; microsecond : Z }.

(** [datetime.strptime('2024-12-15', '%Y-%m-%d')] *)
Definition sample_date : datetime :=
  mk_datetime 2024 12 15 0 0 0 0.

(** The condition written in line in the bad flow. *)
Definition inline_condition (date : datetime) : bool :=
  (month date =? 12) && (year date >=? 2023).

Definition check_if_date_valid (date : datetime) : bool :=
  (month date =? 12) && (year date >=? 2023).

(** Each flow is given by the lines it prints. *)
Definition bad_flow (date : datetime) : list string :=
  if (month date =? 12) && (year date >=? 2023)
  then ["date is valid"] else [].

Definition good_flow (date : datetime) : list string :=
  if check_if_date_valid date
  then ["date is valid"] else [].

(** The whole cell: the bad flow, then the good flow, on [sample_date]. *)
Definition cell_output : list string :=
  bad_flow sample_date ++ good_flow sample_date.

End Decompose.

(** ** 2. Consolidate Conditional Expression *)

Module Consolidate.

(** [person = namedtuple('person', ['age', 'income', 'gender'])] *)
Record person : Type := mk_person
  { age : Z
  ; income : Z
  ; gender : string }.

Definition bad__get_loan_limit (p : person) : Z :=
  if age p >=? 70 then 0
  else if income p <=? 1000 then 0
  else if String.eqb (gender p) "m" then 0
  else 100.

Definition is_eligible_for_loan (p : person) : bool :=
  if age p >=? 70 then false
  else if income p <=? 1000 then false
  else if String.eqb (gender p) "m" then false
  else true.

Definition good__get_loan_limit (p : person) : Z :=
  if is_eligible_for_loan p then 100 else 0.

End Consolidate.

(** ** 3. Consolidate Duplicate Conditional Fragments *)

Module Fragments.

(** [int * float]: Python converts the integer to the nearest binary64
    (ties to even) and multiplies; an integer beyond the binary64 range
    raises [OverflowError]. *)
Definition float_of_int (z : Z) : result float :=
  let f := SF2Prim (binary_normalize prec emax z 0 false) in
  if PrimFloat.is_infinity f then Raise OverflowError else Ok f.

(** [is_discounted] reads one value [val] from [random.randint(1,10)];
    the drawn value is the argument here. *)
Definition is_discounted (val : Z) : bool :=
  if val >? 5 then true else false.

Definition get_price (base : Z) (mult : float) : result float :=
  match float_of_int base with
  | Ok b => Ok (b * mult)%float
  | Raise e => Raise e
  end.

(** The two flows of the cell; each returns the final [(mult, price)]. *)
Definition bad_flow (val : Z) : float * result float :=
  if is_discounted val then
    let mult := 0.8%float in
    let price := get_price 10 mult in
    (mult, price)
  else
    let mult := 1.0%float in
    let price := get_price 10 mult in
    (mult, price).

Definition good_flow (val : Z) : float * result float :=
  let mult := 1.0%float in
  let mult := if is_discounted val then 0.8%float else mult in
  let price := get_price 10 mult in
  (mult, price).

End Fragments.

(** ** 5. Replace Nested Conditional with Guard Clauses *)

Module GuardClauses.

(** How a block of statements ends: with a [return], or by reaching its
    last line. *)
Inductive control (R : Type) : Type :=
| Returned (r : R)
| FellThrough.
Arguments Returned {R} r.
Arguments FellThrough {R}.

Section Person.

(** The methods of [person] are arbitrary code that answers a boolean;
    [World] is whatever state that code reads and writes. *)
Variable World : Type.

Definition M (A : Type) : Type := World -> A * World.

Definition ret {A : Type} (a : A) : M A := fun w => (a, w).

Definition bind {A B : Type} (m : M A) (k : A -> M B) : M B :=
  fun w => let (a, w') := m w in k a w'.

Record person : Type := mk_person
  { is_dead : M bool
  ; is_divorced : M bool
  ; is_retired : M bool
  ; is_not_working : M bool }.

(** A returned value is an integer or Python's [None]. *)
Definition block : Type := M (control (option Z)).

Definition return_ (v : Z) : block := ret (Returned (Some v)).

Definition pass : block := ret FellThrough.

Definition if_ (c : M bool) (t e : block) : block :=
  bind c (fun b => if b then t else e).

Definition seq (s1 s2 : block) : block :=
  bind s1 (fun c =>
    match c with
    | Returned r => ret (Returned r)
    | FellThrough => s2
    end).

(** A function whose body reaches its last line returns [None]. *)
Definition def (body : block) : M (option Z) :=
  bind body (fun c =>
    match c with
    | Returned r => ret r
    | FellThrough => ret None
    end).

Definition bad__loan_repayment_due (p : person) : M (option Z) :=
  def
    (if_ (is_dead p)
       (return_ 0)
       (if_ (is_divorced p)
          (return_ 100)
          (if_ (is_retired p)
             (return_ 100)
             (if_ (is_not_working p)
                (return_ 200)
                pass)))).

Definition good__loan_repayment_due (p : person) : M (option Z) :=
  def
    (seq (if_ (is_dead p) (return_ 0) pass)
    (seq (if_ (is_divorced p) (return_ 100) pass)
    (seq (if_ (is_retired p) (return_ 100) pass)
         (if_ (is_not_working p) (return_ 200) pass)))).

End Person.

Arguments ret {World A} a.
Arguments bind {World A B} m k.
Arguments return_ {World} v.
Arguments pass {World}.
Arguments if_ {World} c t e.
Arguments seq {World} s1 s2.
Arguments def {World} body.
Arguments is_dead {World} p.
Arguments is_divorced {World} p.
Arguments is_retired {World} p.
Arguments is_not_working {World} p.
Arguments bad__loan_repayment_due {World} p.
Arguments good__loan_repayment_due {World} p.

(** A person whose four methods answer fixed booleans and touch nothing. *)
Definition constant_person (d v r n : bool) : person unit :=
  mk_person unit (ret d) (ret v) (ret r) (ret n).

End GuardClauses.

(** ** 7. Introduce Null Object *)

Module NullObject.

Inductive class : Type := Customer | NullCustomer.

(** An instance: its class and its one attribute, [bill]. *)
Record instance : Type := mk_instance
  { class_of : class
  ; bill : Z }.

(** [Customer()]: [__init__] sets [self.bill = 123]. *)
Definition new_Customer : instance := mk_instance Customer 123.

(** [NullCustomer()]: the overriding [__init__] sets [self.bill = 0]. *)
Definition new_NullCustomer : instance := mk_instance NullCustomer 0.

(** An argument is an instance or [None]. *)
Definition bad__get_bill (customer : option instance) : result Z :=
  match customer with
  | None => Ok 0
  | Some c => Ok (bill c)
  end.

(** [None] has no attribute [bill]. *)
Definition good__get_bill (customer : option instance) : result Z :=
  match customer with
  | None => Raise AttributeError
  | Some c => Ok (bill c)
  end.

(** The last two lines of the cell; the second is the cell's value. *)
Definition cell_value : result Z * result Z :=
  let customer1 := new_Customer in
  let customer2 := new_Customer in
  (bad__get_bill (Some customer2), good__get_bill (Some customer1)).

End NullObject.

(** ** The code cells as syntax

    Facts about the shape of the code (no loop, no recursion, no
    [assert], no [try]) need the code itself.  [Ast] holds the cells as
    abstract syntax, named after Python's [ast] nodes, with an
    interpreter that counts down a fuel at every node. *)

Module Ast.

(** Run-time values.  An object carries its class name, its own
    attributes and, for each argument-free method of its class, the
    boolean that method answers; [VMethod] is such a method bound to its
    object, as [obj.meth] without the call gives it. *)
Inductive value : Type :=
| VNone
| VBool (b : bool)
| VInt (z : Z)
| VFloat (f : float)
| VStr (s : string)
| VObj (cls : string) (attrs : list (string * value))
       (answers : list (string * bool))
| VMethod (answer : bool).

Inductive cmpop : Type := Eq | GtE | LtE | Gt | Is.

Inductive expr : Type :=
| Constant (v : value)
| Name (id : string)
| Attribute (e : expr) (attr : string)
| Compare (left : expr) (op : cmpop) (right : expr)
| And (left right : expr)
| Mult (left right : expr)
| Call (func : string) (args : list expr)
| CallMethod (e : expr) (meth : string)
| Randint (a b : Z).

Inductive stmt : Type :=
| Pass
| Expr (e : expr)
| Assign (target : string) (e : expr)
| AssignAttr (target attr : string) (e : expr)
| Print (e : expr)
| Return (e : expr)
| If (test : expr) (body orelse : list stmt)
| While (test : expr) (body : list stmt)
| Assert (test : expr)
| RaiseStmt (e : exn)
| Try (body handler : list stmt).

(** [def name(params): body] *)
Record fundef : Type := mk_fundef
  { params : list string
  ; body : list stmt }.

(** [class name: def __init__(self): init] *)
Record classdef : Type := mk_classdef
  { init : list stmt }.

Record program : Type := mk_program
  { functions : list (string * fundef)
  ; classes : list (string * classdef) }.

(** What the interpreter threads through: the lines printed so far and
    the source of randomness with the number of values drawn from it. *)
Record world : Type := mk_world
  { stdout : list string
  ; entropy : nat -> Z
  ; drawn : nat }.

Definition locals : Type := list (string * value).

(** How an evaluation ends.  [Unmodelled] marks operands or names that
    this fragment does not cover; [OutOfFuel] a fuel that was too small. *)
Inductive outcome (A : Type) : Type :=
| Done (a : A) (w : world)
| Raised (e : exn) (w : world)
| Unmodelled
| OutOfFuel.
Arguments Done {A} a w.
Arguments Raised {A} e w.
Arguments Unmodelled {A}.
Arguments OutOfFuel {A}.

Definition and_then {A B : Type} (o : outcome A)
    (k : A -> world -> outcome B) : outcome B :=
  match o with
  | Done a w => k a w
  | Raised e w => Raised e w
  | Unmodelled => Unmodelled
  | OutOfFuel => OutOfFuel
  end.

Inductive control : Type :=
| Normal
| Returning (v : value).

Fixpoint assoc {A : Type} (k : string) (l : list (string * A)) : option A :=
  match l with
  | [] => None
  | (k', a) :: l' => if String.eqb k k' then Some a else assoc k l'
  end.

Fixpoint update {A : Type} (k : string) (a : A) (l : list (string * A))
    : list (string * A) :=
  match l with
  | [] => [(k, a)]
  | (k', a') :: l' =>
      if String.eqb k k' then (k, a) :: l' else (k', a') :: update k a l'
  end.

(** Truth value of a test; a bound method is true, objects are left
    out. *)
Definition truthy (v : value) : option bool :=
  match v with
  | VNone => Some false
  | VBool b => Some b
  | VInt z => Some (negb (z =? 0))
  | VFloat f => Some (negb (PrimFloat.eqb f 0))
  | VStr s => Some (negb (String.eqb s ""))
  | VObj _ _ _ => None
  | VMethod _ => Some true
  end.

(** Comparisons, on the operand types the cells use.  A bound method
    equals no integer and no string, and cannot be ordered against an
    integer: [TypeError]. *)
Definition compare (op : cmpop) (a b : value) : option (result value) :=
  match op, a, b with
  | Eq, VInt x, VInt y => Some (Ok (VBool (x =? y)))
  | GtE, VInt x, VInt y => Some (Ok (VBool (x >=? y)))
  | LtE, VInt x, VInt y => Some (Ok (VBool (x <=? y)))
  | Gt, VInt x, VInt y => Some (Ok (VBool (x >? y)))
  | Eq, VStr x, VStr y => Some (Ok (VBool (String.eqb x y)))
  | Eq, VMethod _, VInt _ => Some (Ok (VBool false))
  | Eq, VMethod _, VStr _ => Some (Ok (VBool false))
  | GtE, VMethod _, VInt _ => Some (Raise TypeError)
  | LtE, VMethod _, VInt _ => Some (Raise TypeError)
  | Gt, VMethod _, VInt _ => Some (Raise TypeError)
  | Is, VNone, VNone => Some (Ok (VBool true))
  | Is, _, VNone => Some (Ok (VBool false))
  | _, _, _ => None
  end.

(** [obj.attr]: the object's own attributes first, then the methods of
    its class, which come out bound, else [AttributeError]; [None] has
    no attribute of an ordinary name.  Left out: the names in double
    underscores, which every object has, and the attributes of numbers,
    strings and bound methods. *)
Definition get_attr (v : value) (attr : string) : option (result value) :=
  if String.prefix "__" attr then None
  else
    match v with
    | VObj _ attrs answers =>
        match assoc attr attrs with
        | Some a => Some (Ok a)
        | None =>
            match assoc attr answers with
            | Some b => Some (Ok (VMethod b))
            | None => Some (Raise AttributeError)
            end
        end
    | VNone => Some (Raise AttributeError)
    | _ => None
    end.

(** [f()]: a bound method answers; nothing else here can be called. *)
Definition call_value (f : value) : result value :=
  match f with
  | VMethod b => Ok (VBool b)
  | _ => Raise TypeError
  end.

(** [*] on numbers. *)
Definition mult (a b : value) : option (result value) :=
  match a, b with
  | VInt x, VInt y => Some (Ok (VInt (x * y)))
  | VFloat x, VFloat y => Some (Ok (VFloat (x * y)))
  | VInt x, VFloat y =>
      Some match Fragments.float_of_int x with
           | Ok x' => Ok (VFloat (x' * y))
           | Raise e => Raise e
           end
  | VFloat x, VInt y =>
      Some match Fragments.float_of_int y with
           | Ok y' => Ok (VFloat (x * y'))
           | Raise e => Raise e
           end
  | _, _ => None
  end.

(** [random.randint(a, b)]: the next raw value, brought into [a..b]. *)
Definition randint (a b : Z) (w : world) : Z * world :=
  (a + entropy w (drawn w) mod (b - a + 1),
   mk_world (stdout w) (entropy w) (S (drawn w))).

Definition print (s : string) (w : world) : world :=
  mk_world (stdout w ++ [s]) (entropy w) (drawn w).

Fixpoint bind_params (ps : list string) (vs : list value) : option locals :=
  match ps, vs with
  | [], [] => Some []
  | p :: ps', v :: vs' =>
      match bind_params ps' vs' with
      | Some env => Some ((p, v) :: env)
      | None => None
      end
  | _, _ => None
  end.

(** The interpreter.  Every node costs one unit of [fuel]; a call runs
    the callee's body on fresh locals holding its parameters, and a
    class is called by running its [__init__] on an empty [self]. *)
Fixpoint eval (fuel : nat) (p : program) (e : expr) (env : locals)
    (w : world) {struct fuel} : outcome value :=
  match fuel with
  | O => OutOfFuel
  | S fuel' =>
      match e with
      | Constant v => Done v w
      | Name id =>
          match assoc id env with
          | Some v => Done v w
          | None => Unmodelled
          end
      | Attribute e' attr =>
          and_then (eval fuel' p e' env w) (fun v w1 =>
            match get_attr v attr with
            | Some (Ok a) => Done a w1
            | Some (Raise x) => Raised x w1
            | None => Unmodelled
            end)
      | Compare l op r =>
          and_then (eval fuel' p l env w) (fun a w1 =>
          and_then (eval fuel' p r env w1) (fun b w2 =>
            match compare op a b with
            | Some (Ok v) => Done v w2
            | Some (Raise x) => Raised x w2
            | None => Unmodelled
            end))
      | And l r =>
          and_then (eval fuel' p l env w) (fun a w1 =>
            match truthy a with
            | Some true => eval fuel' p r env w1
            | Some false => Done a w1
            | None => Unmodelled
            end)
      | Mult l r =>
          and_then (eval fuel' p l env w) (fun a w1 =>
          and_then (eval fuel' p r env w1) (fun b w2 =>
            match mult a b with
            | Some (Ok v) => Done v w2
            | Some (Raise x) => Raised x w2
            | None => Unmodelled
            end))
      | Call func args =>
          and_then (eval_args fuel' p args env w) (fun vs w1 =>
            match assoc func (functions p) with
            | Some fd =>
                match bind_params (params fd) vs with
                | Some env' =>
                    and_then (exec_block fuel' p (body fd) env' w1)
                      (fun r w2 =>
                         match fst r with
                         | Returning v => Done v w2
                         | Normal => Done VNone w2
                         end)
                | None => Raised TypeError w1
                end
            | None =>
                match assoc func (classes p), vs with
                | Some cd, [] =>
                    and_then
                      (exec_block fuel' p (init cd)
                         [("self", VObj func [] [])] w1)
                      (fun r w2 =>
                         match assoc "self" (snd r) with
                         | Some self => Done self w2
                         | None => Unmodelled
                         end)
                | Some _, _ :: _ => Raised TypeError w1
                | None, _ => Unmodelled
                end
            end)
      | CallMethod e' meth =>
          and_then (eval fuel' p e' env w) (fun v w1 =>
            match get_attr v meth with
            | Some (Ok f) =>
                match call_value f with
                | Ok r => Done r w1
                | Raise x => Raised x w1
                end
            | Some (Raise x) => Raised x w1
            | None => Unmodelled
            end)
      | Randint a b =>
          let (z, w1) := randint a b w in Done (VInt z) w1
      end
  end

with eval_args (fuel : nat) (p : program) (es : list expr) (env : locals)
    (w : world) {struct fuel} : outcome (list value) :=
  match fuel with
  | O => OutOfFuel
  | S fuel' =>
      match es with
      | [] => Done [] w
      | e :: es' =>
          and_then (eval fuel' p e env w) (fun v w1 =>
          and_then (eval_args fuel' p es' env w1) (fun vs w2 =>
            Done (v :: vs) w2))
      end
  end

with exec (fuel : nat) (p : program) (s : stmt) (env : locals)
    (w : world) {struct fuel} : outcome (control * locals) :=
  match fuel with
  | O => OutOfFuel
  | S fuel' =>
      match s with
      | Pass => Done (Normal, env) w
      | Expr e =>
          and_then (eval fuel' p e env w) (fun _ w1 => Done (Normal, env) w1)
      | Assign target e =>
          and_then (eval fuel' p e env w) (fun v w1 =>
            Done (Normal, update target v env) w1)
      | AssignAttr target attr e =>
          and_then (eval fuel' p e env w) (fun v w1 =>
            match assoc target env with
            | Some (VObj c attrs answers) =>
                Done (Normal,
                      update target (VObj c (update attr v attrs) answers) env)
                  w1
            | _ => Unmodelled
            end)
      | Print e =>
          and_then (eval fuel' p e env w) (fun v w1 =>
            match v with
            | VStr s => Done (Normal, env) (print s w1)
            | _ => Unmodelled
            end)
      | Return e =>
          and_then (eval fuel' p e env w) (fun v w1 =>
            Done (Returning v, env) w1)
      | If test b orelse =>
          and_then (eval fuel' p test env w) (fun v w1 =>
            match truthy v with
            | Some true => exec_block fuel' p b env w1
            | Some false => exec_block fuel' p orelse env w1
            | None => Unmodelled
            end)
      | While test b =>
          and_then (eval fuel' p test env w) (fun v w1 =>
            match truthy v with
            | Some true =>
                and_then (exec_block fuel' p b env w1) (fun r w2 =>
                  match fst r with
                  | Returning x => Done r w2
                  | Normal => exec fuel' p (While test b) (snd r) w2
                  end)
            | Some false => Done (Normal, env) w1
            | None => Unmodelled
            end)
      | Assert test =>
          and_then (eval fuel' p test env w) (fun v w1 =>
            match truthy v with
            | Some true => Done (Normal, env) w1
            | Some false => Raised AssertionError w1
            | None => Unmodelled
            end)
      | RaiseStmt x => Raised x w
      | Try b handler =>
          match exec_block fuel' p b env w with
          | Raised _ w1 => exec_block fuel' p handler env w1
          | o => o
          end
      end
  end

with exec_block (fuel : nat) (p : program) (ss : list stmt) (env : locals)
    (w : world) {struct fuel} : outcome (control * locals) :=
  match fuel with
  | O => OutOfFuel
  | S fuel' =>
      match ss with
      | [] => Done (Normal, env) w
      | s :: ss' =>
          and_then (exec fuel' p s env w) (fun r w1 =>
            match fst r with
            | Returning v => Done r w1
            | Normal => exec_block fuel' p ss' (snd r) w1
            end)
      end
  end.

(** [func(args)] from outside, on values. *)
Definition call (fuel : nat) (p : program) (func : string)
    (args : list value) (w : world) : outcome value :=
  eval fuel p (Call func (map Constant args)) [] w.

(** *** Shape of the code *)

Fixpoint loop_free (s : stmt) : bool :=
  match s with
  | While _ _ => false
  | If _ b orelse => forallb loop_free b && forallb loop_free orelse
  | Try b handler => forallb loop_free b && forallb loop_free handler
  | _ => true
  end.


(** The names called in an expression, in a statement. *)
Fixpoint callees (e : expr) : list string :=
  match e with
  | Constant _ | Name _ | Randint _ _ => []
  | Attribute e' _ | CallMethod e' _ => callees e'
  | Compare l _ r | And l r | Mult l r => callees l ++ callees r
  | Call func args => func :: flat_map callees args
  end.

Fixpoint callees_stmt (s : stmt) : list string :=
  match s with
  | Pass | RaiseStmt _ => []
  | Expr e | Assign _ e | AssignAttr _ _ e | Print e | Return e
  | Assert e => callees e
  | If test b orelse =>
      callees test ++ flat_map callees_stmt b ++ flat_map callees_stmt orelse
  | While test b => callees test ++ flat_map callees_stmt b
  | Try b handler => flat_map callees_stmt b ++ flat_map callees_stmt handler
  end.

Definition mentions (names : list string) (x : string) : bool :=
  existsb (String.eqb x) names.

(** Every function calls only functions defined before it (or classes):
    no function reaches itself through calls. *)
Fixpoint defined_before_use (earlier : list string)
    (fs : list (string * fundef)) : bool :=
  match fs with
  | [] => true
  | (name, fd) :: fs' =>
      forallb (mentions earlier) (flat_map callees_stmt (body fd))
      && defined_before_use (name :: earlier) fs'
  end.

End Ast.

(** ** The notebook

    The ten functions and two classes of the code cells, in the order
    the notebook defines them, and the top-level lines of cells 1, 3
    and 5. *)

Module Notebook.

Import Ast.

Definition Int (z : Z) : expr := Constant (VInt z).
Definition Str (s : string) : expr := Constant (VStr s).

(** Cell 1 *)
Definition check_if_date_valid : fundef :=
  mk_fundef ["date"]
    [ Return (And (Compare (Attribute (Name "date") "month") Eq (Int 12))
                  (Compare (Attribute (Name "date") "year") GtE (Int 2023))) ].

(** Cell 2 *)
Definition bad__get_loan_limit : fundef :=
  mk_fundef ["person"]
    [ If (Compare (Attribute (Name "person") "age") GtE (Int 70))
        [ Return (Int 0) ]
        [ If (Compare (Attribute (Name "person") "income") LtE (Int 1000))
            [ Return (Int 0) ]
            [ If (Compare (Attribute (Name "person") "gender") Eq (Str "m"))
                [ Return (Int 0) ]
                [] ] ]
    ; Return (Int 100) ].

Definition is_eligible_for_loan : fundef :=
  mk_fundef ["person"]
    [ If (Compare (Attribute (Name "person") "age") GtE (Int 70))
        [ Return (Constant (VBool false)) ]
        [ If (Compare (Attribute (Name "person") "income") LtE (Int 1000))
            [ Return (Constant (VBool false)) ]
            [ If (Compare (Attribute (Name "person") "gender") Eq (Str "m"))
                [ Return (Constant (VBool false)) ]
                [] ] ]
    ; Return (Constant (VBool true)) ].

Definition good__get_loan_limit : fundef :=
  mk_fundef ["person"]
    [ If (Call "is_eligible_for_loan" [Name "person"])
        [ Return (Int 100) ]
        []
    ; Return (Int 0) ].

(** Cell 3 *)
Definition is_discounted : fundef :=
  mk_fundef []
    [ Assign "val" (Randint 1 10)
    ; If (Compare (Name "val") Gt (Int 5))
        [ Return (Constant (VBool true)) ]
        []
    ; Return (Constant (VBool false)) ].

Definition get_price : fundef :=
  mk_fundef ["base"; "mult"]
    [ Return (Mult (Name "base") (Name "mult")) ].

(** Cell 4 *)
Definition bad__loan_repayment_due : fundef :=
  mk_fundef ["person"]
    [ If (CallMethod (Name "person") "is_dead")
        [ Return (Int 0) ]
        [ If (CallMethod (Name "person") "is_divorced")
            [ Return (Int 100) ]
            [ If (CallMethod (Name "person") "is_retired")
                [ Return (Int 100) ]
                [ If (CallMethod (Name "person") "is_not_working")
                    [ Return (Int 200) ]
                    [] ] ] ] ].

Definition good__loan_repayment_due : fundef :=
  mk_fundef ["person"]
    [ If (CallMethod (Name "person") "is_dead") [ Return (Int 0) ] []
    ; If (CallMethod (Name "person") "is_divorced") [ Return (Int 100) ] []
    ; If (CallMethod (Name "person") "is_retired") [ Return (Int 100) ] []
    ; If (CallMethod (Name "person") "is_not_working")
        [ Return (Int 200) ] [] ].

(** Cell 5 *)
Definition Customer : classdef :=
  mk_classdef [ AssignAttr "self" "bill" (Int 123) ].

Definition NullCustomer : classdef :=
  mk_classdef [ AssignAttr "self" "bill" (Int 0) ].

Definition bad__get_bill : fundef :=
  mk_fundef ["customer"]
    [ If (Compare (Name "customer") Is (Constant VNone))
        [ Return (Int 0) ]
        []
    ; Return (Attribute (Name "customer") "bill") ].

Definition good__get_bill : fundef :=
  mk_fundef ["customer"]
    [ Return (Attribute (Name "customer") "bill") ].

Definition notebook : program :=
  mk_program
    [ ("check_if_date_valid", check_if_date_valid)
    ; ("bad__get_loan_limit", bad__get_loan_limit)
    ; ("is_eligible_for_loan", is_eligible_for_loan)
    ; ("good__get_loan_limit", good__get_loan_limit)
    ; ("is_discounted", is_discounted)
    ; ("get_price", get_price)
    ; ("bad__loan_repayment_due", bad__loan_repayment_due)
    ; ("good__loan_repayment_due", good__loan_repayment_due)
    ; ("bad__get_bill", bad__get_bill)
    ; ("good__get_bill", good__get_bill) ]
    [ ("Customer", Customer)
    ; ("NullCustomer", NullCustomer) ].

(** *** Values of the shapes the examples use *)

Definition date_value (d : Decompose.datetime) : value :=
  VObj "datetime"
    [ ("year", VInt (Decompose.year d))
    ; ("month", VInt (Decompose.month d))
    ; ("day", VInt (Decompose.day d))
    ; ("hour", VInt (Decompose.hour d))
    ; ("minute", VInt (Decompose.minute d))
    ; ("second", VInt (Decompose.second d))
    ; ("microsecond", VInt (Decompose.microsecond d)) ]
    [].

Definition person_value (p : Consolidate.person) : value :=
  VObj "person"
    [ ("age", VInt (Consolidate.age p))
    ; ("income", VInt (Consolidate.income p))
    ; ("gender", VStr (Consolidate.gender p)) ]
    [].

(** A person of cell 4, by what the four methods answer. *)
Definition debtor_value (d v r n : bool) : value :=
  VObj "person" []
    [ ("is_dead", d)
    ; ("is_divorced", v)
    ; ("is_retired", r)
    ; ("is_not_working", n) ].

Definition class_name (c : NullObject.class) : string :=
  match c with
  | NullObject.Customer => "Customer"
  | NullObject.NullCustomer => "NullCustomer"
  end.

Definition customer_value (customer : option NullObject.instance) : value :=
  match customer with
  | Some c =>
      VObj (class_name (NullObject.class_of c))
        [ ("bill", VInt (NullObject.bill c)) ] []
  | None => VNone
  end.

Definition amount_value (r : option Z) : value :=
  match r with
  | Some z => VInt z
  | None => VNone
  end.

(** An outcome of the interpreter from a value or exception of the
    functional model. *)
Definition finish {A : Type} (f : A -> value) (r : result A) (w : world)
    : outcome value :=
  match r with
  | Ok a => Done (f a) w
  | Raise e => Raised e w
  end.

(** *** Top-level lines *)

(** Cell 1: the two flows, and the cell with the [strptime] call
    replaced by the date it returns. *)
Definition cell1_bad_flow : list stmt :=
  [ If (And (Compare (Attribute (Name "date") "month") Eq (Int 12))
            (Compare (Attribute (Name "date") "year") GtE (Int 2023)))
      [ Print (Str "date is valid") ]
      [] ].

Definition cell1_good_flow : list stmt :=
  [ If (Call "check_if_date_valid" [Name "date"])
      [ Print (Str "date is valid") ]
      [] ].

Definition cell1 : list stmt :=
  Assign "date" (Constant (date_value Decompose.sample_date))
  :: cell1_bad_flow ++ cell1_good_flow.

Definition cell3_bad_flow : list stmt :=
  [ If (Call "is_discounted" [])
      [ Assign "mult" (Constant (VFloat 0.8))
      ; Assign "price" (Call "get_price" [Int 10; Name "mult"]) ]
      [ Assign "mult" (Constant (VFloat 1.0))
      ; Assign "price" (Call "get_price" [Int 10; Name "mult"]) ] ].

Definition cell3_good_flow : list stmt :=
  [ Assign "mult" (Constant (VFloat 1.0))
  ; If (Call "is_discounted" [])
      [ Assign "mult" (Constant (VFloat 0.8)) ]
      []
  ; Assign "price" (Call "get_price" [Int 10; Name "mult"]) ].

Definition cell5 : list stmt :=
  [ Assign "customer1" (Call "Customer" [])
  ; Assign "customer2" (Call "Customer" [])
  ; Assign "customer3" (Call "NullCustomer" [])
  ; Expr (Call "bad__get_bill" [Name "customer2"])
  ; Expr (Call "good__get_bill" [Name "customer1"]) ].


(** Fuel that every call below fits in. *)
Definition enough : nat := 32.

(** [func(args)] runs to completion: it returns a value or raises, and
    does not use up the fuel. *)
Definition halts (func : string) (args : list value) : Prop :=
  forall w : world,
    (exists v w', call enough notebook func args w = Done v w') \/
    (exists e w', call enough notebook func args w = Raised e w').


(** A block of top-level lines runs to its last line. *)
Definition runs_normally (lines : list stmt) : Prop :=
  forall w : world,
    exists env w',
      exec_block enough notebook lines [] w = Done (Normal, env) w'.

End Notebook.

(** ** Instruments for the further properties *)

Module Further.

(** A method with its calls tallied: the counter goes up by one each
    time the method runs. *)
Definition counted {World : Type} (m : GuardClauses.M World bool)
    : GuardClauses.M (World * nat) bool :=
  fun wc =>
    let (b, w') := m (fst wc) in (b, (w', S (snd wc))).

Definition counted_person {World : Type} (p : GuardClauses.person World)
    : GuardClauses.person (World * nat) :=
  GuardClauses.mk_person (World * nat)
    (counted (GuardClauses.is_dead p))
    (counted (GuardClauses.is_divorced p))
    (counted (GuardClauses.is_retired p))
    (counted (GuardClauses.is_not_working p)).

(** The top-level lines of cell 3 in the order the cell runs them: the
    bad flow, then the good flow. *)
Definition cell3 : list Ast.stmt :=
  Notebook.cell3_bad_flow ++ Notebook.cell3_good_flow.

(** A call that ended, with a value or an exception, left the world as
    it found it: nothing printed, nothing drawn. *)
Definition leaves_world (o : Ast.outcome Ast.value) (w : Ast.world)
    : Prop :=
  match o with
  | Ast.Done _ w' => w' = w
  | Ast.Raised _ w' => w' = w
  | Ast.Unmodelled => True
  | Ast.OutOfFuel => True
  end.

End Further.

(** ** The syntax agrees with the functional model

    Each function of [Notebook.notebook], run by the interpreter with
    [Notebook.enough] fuel, ends with what its functional model gives. *)

Ltac run_call :=
  unfold Ast.call, Notebook.enough;
  cbn -[Z.geb Z.leb Z.eqb Z.gtb Z.add Z.sub Z.mul Z.modulo
        PrimFloat.mul Fragments.float_of_int].

Ltac split_tests :=
  repeat match goal with
         | |- context [if ?b then _ else _] => destruct b; cbn [andb]
         end.

Lemma call_check_if_date_valid (d : Decompose.datetime) (w : Ast.world) :
  Ast.call Notebook.enough Notebook.notebook "check_if_date_valid"
    [Notebook.date_value d] w
  = Ast.Done (Ast.VBool (Decompose.check_if_date_valid d)) w.
Proof.
  run_call. unfold Decompose.check_if_date_valid.
  destruct (Decompose.month d =? 12); cbn [negb andb]; reflexivity.
Qed.

Lemma call_bad__get_loan_limit (p : Consolidate.person) (w : Ast.world) :
  Ast.call Notebook.enough Notebook.notebook "bad__get_loan_limit"
    [Notebook.person_value p] w
  = Ast.Done (Ast.VInt (Consolidate.bad__get_loan_limit p)) w.
Proof.
  run_call. unfold Consolidate.bad__get_loan_limit.
  split_tests; reflexivity.
Qed.

Lemma call_is_eligible_for_loan (p : Consolidate.person) (w : Ast.world) :
  Ast.call Notebook.enough Notebook.notebook "is_eligible_for_loan"
    [Notebook.person_value p] w
  = Ast.Done (Ast.VBool (Consolidate.is_eligible_for_loan p)) w.
Proof.
  run_call. unfold Consolidate.is_eligible_for_loan.
  split_tests; reflexivity.
Qed.

Lemma call_good__get_loan_limit (p : Consolidate.person) (w : Ast.world) :
  Ast.call Notebook.enough Notebook.notebook "good__get_loan_limit"
    [Notebook.person_value p] w
  = Ast.Done (Ast.VInt (Consolidate.good__get_loan_limit p)) w.
Proof.
  run_call.
  unfold Consolidate.good__get_loan_limit, Consolidate.is_eligible_for_loan.
  split_tests; reflexivity.
Qed.

Lemma call_is_discounted (w : Ast.world) :
  Ast.call Notebook.enough Notebook.notebook "is_discounted" [] w
  = Ast.Done
      (Ast.VBool (Fragments.is_discounted (fst (Ast.randint 1 10 w))))
      (snd (Ast.randint 1 10 w)).
Proof.
  run_call. unfold Fragments.is_discounted.
  split_tests; reflexivity.
Qed.

Lemma call_get_price (base : Z) (mult : float) (w : Ast.world) :
  Ast.call Notebook.enough Notebook.notebook "get_price"
    [Ast.VInt base; Ast.VFloat mult] w
  = Notebook.finish Ast.VFloat (Fragments.get_price base mult) w.
Proof.
  run_call. unfold Fragments.get_price.
  destruct (Fragments.float_of_int base); reflexivity.
Qed.

Lemma call_bad__loan_repayment_due (d v r n : bool) (w : Ast.world) :
  Ast.call Notebook.enough Notebook.notebook "bad__loan_repayment_due"
    [Notebook.debtor_value d v r n] w
  = Ast.Done
      (Notebook.amount_value
         (fst (GuardClauses.bad__loan_repayment_due
                 (GuardClauses.constant_person d v r n) tt))) w.
Proof.
  destruct d, v, r, n; reflexivity.
Qed.

Lemma call_good__loan_repayment_due (d v r n : bool) (w : Ast.world) :
  Ast.call Notebook.enough Notebook.notebook "good__loan_repayment_due"
    [Notebook.debtor_value d v r n] w
  = Ast.Done
      (Notebook.amount_value
         (fst (GuardClauses.good__loan_repayment_due
                 (GuardClauses.constant_person d v r n) tt))) w.
Proof.
  destruct d, v, r, n; reflexivity.
Qed.

Lemma call_bad__get_bill (customer : option NullObject.instance)
    (w : Ast.world) :
  Ast.call Notebook.enough Notebook.notebook "bad__get_bill"
    [Notebook.customer_value customer] w
  = Notebook.finish Ast.VInt (NullObject.bad__get_bill customer) w.
Proof.
  destruct customer as [c|]; reflexivity.
Qed.

Lemma call_good__get_bill (customer : option NullObject.instance)
    (w : Ast.world) :
  Ast.call Notebook.enough Notebook.notebook "good__get_bill"
    [Notebook.customer_value customer] w
  = Notebook.finish Ast.VInt (NullObject.good__get_bill customer) w.
Proof.
  destruct customer as [c|]; reflexivity.
Qed.

(** Calling a class builds the instance of the functional model. *)
Lemma call_Customer (w : Ast.world) :
  Ast.call Notebook.enough Notebook.notebook "Customer" [] w
  = Ast.Done (Notebook.customer_value (Some NullObject.new_Customer)) w.
Proof. reflexivity. Qed.

Lemma call_NullCustomer (w : Ast.world) :
  Ast.call Notebook.enough Notebook.notebook "NullCustomer" [] w
  = Ast.Done (Notebook.customer_value (Some NullObject.new_NullCustomer)) w.
Proof. reflexivity. Qed.

(** [random.randint(1,10)] yields a value from 1 to 10. *)
Lemma randint_1_10_range (w : Ast.world) :
  1 <= fst (Ast.randint 1 10 w) <= 10.
Proof.
  unfold Ast.randint. cbn [fst].
  pose proof (Z.mod_pos_bound (Ast.entropy w (Ast.drawn w)) (10 - 1 + 1)).
  lia.
Qed.

(** On a date bound to [date], each flow of cell 1 prints what its
    functional model lists. *)
Lemma cell1_bad_flow_prints (date : Decompose.datetime) (w : Ast.world) :
  Ast.exec_block Notebook.enough Notebook.notebook Notebook.cell1_bad_flow
    [("date"%string, Notebook.date_value date)] w
  = Ast.Done (Ast.Normal, [("date"%string, Notebook.date_value date)])
      (fold_left (fun w' s => Ast.print s w') (Decompose.bad_flow date) w).
Proof.
  cbn -[Z.geb Z.eqb]. unfold Decompose.bad_flow.
  destruct (Decompose.month date =? 12); cbn -[Z.geb]; [|reflexivity].
  destruct (Decompose.year date >=? 2023); reflexivity.
Qed.

Lemma cell1_good_flow_prints (date : Decompose.datetime) (w : Ast.world) :
  Ast.exec_block Notebook.enough Notebook.notebook Notebook.cell1_good_flow
    [("date"%string, Notebook.date_value date)] w
  = Ast.Done (Ast.Normal, [("date"%string, Notebook.date_value date)])
      (fold_left (fun w' s => Ast.print s w') (Decompose.good_flow date) w).
Proof.
  cbn -[Z.geb Z.eqb].
  unfold Decompose.good_flow, Decompose.check_if_date_valid.
  destruct (Decompose.month date =? 12); cbn -[Z.geb]; [|reflexivity].
  destruct (Decompose.year date >=? 2023); reflexivity.
Qed.

(** The top-level lines of cells 1, 3 and 5 under the interpreter. *)
Lemma cell1_prints (w : Ast.world) :
  exists env,
    Ast.exec_block Notebook.enough Notebook.notebook Notebook.cell1 [] w
    = Ast.Done (Ast.Normal, env)
        (Ast.mk_world (Ast.stdout w ++ Decompose.cell_output)
           (Ast.entropy w) (Ast.drawn w)).
Proof.
  eexists. cbn. unfold Ast.print. cbn. rewrite <- app_assoc. reflexivity.
Qed.

Lemma cell3_bad_flow_assigns (w : Ast.world) :
  Ast.exec_block Notebook.enough Notebook.notebook Notebook.cell3_bad_flow
    [] w
  = Ast.Done
      (Ast.Normal,
       [ ("mult"%string,
          Ast.VFloat (fst (Fragments.bad_flow (fst (Ast.randint 1 10 w)))))
       ; ("price"%string,
          Ast.VFloat
            (if Fragments.is_discounted (fst (Ast.randint 1 10 w))
             then 8.0 else 10.0)) ])
      (snd (Ast.randint 1 10 w)).
Proof.
  run_call. unfold Fragments.bad_flow, Fragments.is_discounted.
  split_tests; reflexivity.
Qed.

Lemma cell3_good_flow_assigns (w : Ast.world) :
  Ast.exec_block Notebook.enough Notebook.notebook Notebook.cell3_good_flow
    [] w
  = Ast.Done
      (Ast.Normal,
       [ ("mult"%string,
          Ast.VFloat (fst (Fragments.good_flow (fst (Ast.randint 1 10 w)))))
       ; ("price"%string,
          Ast.VFloat
            (if Fragments.is_discounted (fst (Ast.randint 1 10 w))
             then 8.0 else 10.0)) ])
      (snd (Ast.randint 1 10 w)).
Proof.
  run_call. unfold Fragments.good_flow, Fragments.is_discounted.
  split_tests; reflexivity.
Qed.

Lemma cell5_assigns (w : Ast.world) :
  Ast.exec_block Notebook.enough Notebook.notebook Notebook.cell5 [] w
  = Ast.Done
      (Ast.Normal,
       [ ("customer1"%string,
          Notebook.customer_value (Some NullObject.new_Customer))
       ; ("customer2"%string,
          Notebook.customer_value (Some NullObject.new_Customer))
       ; ("customer3"%string,
          Notebook.customer_value (Some NullObject.new_NullCustomer)) ])
      w.
Proof. reflexivity. Qed.

(** ** Integers that fit binary64

    [Fragments.float_of_int] rounds through [binary_normalize]; the
    lemmas below follow an integer of any length through it, at
    precision 53 and largest exponent 1024.  An integer of at most 53
    bits is kept as it is; a longer one keeps its top 53 bits, rounded
    to nearest even; the result leaves the format exactly from
    2^1024 - 2^970 on. *)

Lemma digits2_pos_bounds (m : positive) :
  2 ^ (Zpos (digits2_pos m) - 1) <= Zpos m < 2 ^ Zpos (digits2_pos m).
Proof.
  induction m as [m IH|m IH|]; cbn [digits2_pos].
  - rewrite Pos2Z.inj_succ.
    replace (Z.succ (Zpos (digits2_pos m)) - 1) with (Z.succ (Zpos (digits2_pos m) - 1)) by lia.
    rewrite !Z.pow_succ_r by lia. lia.
  - rewrite Pos2Z.inj_succ.
    replace (Z.succ (Zpos (digits2_pos m)) - 1) with (Z.succ (Zpos (digits2_pos m) - 1)) by lia.
    rewrite !Z.pow_succ_r by lia. lia.
  - cbn. lia.
Qed.

Lemma digits2_pos_unique (m : positive) (k : Z) :
  2 ^ (k - 1) <= Zpos m < 2 ^ k -> Zpos (digits2_pos m) = k.
Proof.
  intros [Hlo Hhi]. pose proof (digits2_pos_bounds m) as [Dlo Dhi].
  assert (0 < k).
  { destruct (Z.ltb_spec 0 k); [assumption|].
    rewrite (Z.pow_neg_r 2 (k - 1)) in Hlo by lia.
    destruct (Z.eq_dec k 0) as [->|]; [cbn in Hhi; lia|].
    rewrite Z.pow_neg_r in Hhi by lia. lia. }
  destruct (Z.lt_trichotomy (Zpos (digits2_pos m)) k) as [Hc|[Hc|Hc]]; [|assumption|].
  - assert (2 ^ Zpos (digits2_pos m) <= 2 ^ (k - 1)) by (apply Z.pow_le_mono_r; lia). lia.
  - assert (2 ^ k <= 2 ^ (Zpos (digits2_pos m) - 1)) by (apply Z.pow_le_mono_r; lia). lia.
Qed.

Lemma iter_xO_value (m p : positive) :
  Zpos (Pos.iter xO m p) = Zpos m * 2 ^ Zpos p.
Proof.
  induction p as [|p IH] using Pos.peano_ind.
  - cbn. lia.
  - rewrite Pos.iter_succ, Pos2Z.inj_xO, IH, Pos2Z.inj_succ, Z.pow_succ_r by lia.
    lia.
Qed.

Lemma iter_pos_nat {A : Type} (f : A -> A) (p : positive) (x : A) :
  iter_pos f p x = Nat.iter (Pos.to_nat p) f x.
Proof.
  revert x. induction p as [p IH|p IH|]; intros x; cbn [iter_pos].
  - rewrite !IH, Pos2Nat.inj_xI, <- Nat.iter_add, <- Nat.iter_succ_r.
    f_equal. lia.
  - rewrite !IH, Pos2Nat.inj_xO, <- Nat.iter_add. f_equal. lia.
  - reflexivity.
Qed.

Lemma shr_1_step (m : Z) (r s : bool) :
  0 <= m ->
  shr_m (shr_1 (Build_shr_record m r s)) = m / 2 /\
  shr_r (shr_1 (Build_shr_record m r s)) = Z.odd m.
Proof.
  intros Hm. destruct m as [|[q|q|]|q]; try lia; cbn [shr_1 shr_m shr_r Z.odd].
  - split; [reflexivity|reflexivity].
  - rewrite Pos2Z.inj_xI. split; [|reflexivity].
    apply Z.div_unique with (r := 1); lia.
  - rewrite Pos2Z.inj_xO. split; [|reflexivity].
    apply Z.div_unique with (r := 0); lia.
  - split; reflexivity.
Qed.

Lemma shr_nat (M : Z) (k : nat) (r s : bool) :
  0 <= M ->
  let x := Nat.iter k shr_1 (Build_shr_record M r s) in
  shr_m x = M / 2 ^ Z.of_nat k /\
  (forall j, k = S j -> shr_r x = Z.odd (M / 2 ^ Z.of_nat j)).
Proof.
  intros HM. induction k as [|k IH]; cbn zeta.
  - cbn. split; [rewrite Z.div_1_r; reflexivity | discriminate].
  - rewrite Nat.iter_succ. cbn zeta in IH. destruct IH as [IHm _].
    destruct (Nat.iter k shr_1 (Build_shr_record M r s)) as [m r' s'] eqn:E.
    cbn [shr_m] in IHm.
    assert (0 <= m) as Hm by (rewrite IHm; apply Z.div_pos; lia).
    destruct (shr_1_step m r' s' Hm) as [Sm Sr].
    split.
    + rewrite Sm, IHm, Z.div_div, Nat2Z.inj_succ, Z.pow_succ_r by lia.
      f_equal. lia.
    + intros j Hj. injection Hj as <-. rewrite Sr, IHm. reflexivity.
Qed.

Lemma round_aux_exact (s : bool) (mz : positive) (ez : Z) :
  Zpos (digits2_pos mz) = 53 -> -1074 <= ez <= 971 ->
  binary_round_aux 53 1024 s (Zpos mz) ez loc_Exact = S754_finite s mz ez /\
  bounded 53 1024 mz ez = true.
Proof.
  intros Hd He.
  assert (fexp 53 1024 (53 + ez) - ez = 0) as Hf
    by (unfold fexp, SpecFloat.emin; lia).
  split.
  - unfold binary_round_aux, shr_fexp. cbn [Zdigits2 shr_record_of_loc].
    rewrite Hd, Hf. cbn [shr shr_m loc_of_shr_record round_nearest_even].
    cbn [Zdigits2 shr_record_of_loc]. rewrite Hd, Hf. cbn [shr shr_m].
    destruct (Z.leb_spec ez (1024 - 53)); [reflexivity | lia].
  - unfold bounded, canonical_mantissa. rewrite Hd.
    apply andb_true_intro. split.
    + apply Z.eqb_eq. lia.
    + apply Z.leb_le. lia.
Qed.

Lemma digits2_pos_shl (m p : positive) :
  Zpos (digits2_pos (Pos.iter xO m p)) = Zpos (digits2_pos m) + Zpos p.
Proof.
  apply digits2_pos_unique. rewrite iter_xO_value.
  pose proof (digits2_pos_bounds m) as [Hlo Hhi].
  replace (Zpos (digits2_pos m) + Zpos p - 1)
    with (Zpos (digits2_pos m) - 1 + Zpos p) by lia.
  rewrite !Z.pow_add_r by lia.
  assert (0 < 2 ^ Zpos p) by (apply Z.pow_pos_nonneg; lia).
  split; [apply Z.mul_le_mono_nonneg_r | apply Z.mul_lt_mono_pos_r]; lia.
Qed.

Lemma binary_round_small (s : bool) (m : positive) :
  Zpos (digits2_pos m) <= 53 ->
  exists m' e',
    binary_round 53 1024 s m 0 = S754_finite s m' e' /\
    bounded 53 1024 m' e' = true.
Proof.
  intros Hd. unfold binary_round, shl_align.
  assert (fexp 53 1024 (Zpos (digits2_pos m) + 0)
          = Zpos (digits2_pos m) - 53) as Hf
    by (unfold fexp, SpecFloat.emin; lia).
  rewrite Hf.
  destruct (Zpos (digits2_pos m) - 53 - 0) as [|q|q] eqn:E; try lia.
  - exists m, 0. apply round_aux_exact; lia.
  - exists (Pos.iter xO m q), (Zpos (digits2_pos m) - 53).
    apply round_aux_exact; [rewrite digits2_pos_shl|]; lia.
Qed.

Lemma shr_fexp_big (m p : positive) :
  Zpos (digits2_pos m) = 53 + Zpos p ->
  exists x,
    shr_fexp 53 1024 (Zpos m) 0 loc_Exact = (x, Zpos p) /\
    shr_m x = Zpos m / 2 ^ Zpos p /\
    shr_r x = Z.odd (Zpos m / 2 ^ (Zpos p - 1)).
Proof.
  intros Hd. unfold shr_fexp. cbn [Zdigits2 shr_record_of_loc].
  assert (fexp 53 1024 (Zpos (digits2_pos m) + 0) - 0 = Zpos p) as Hf
    by (unfold fexp, SpecFloat.emin; lia).
  rewrite Hf. cbn [shr]. rewrite iter_pos_nat.
  eexists. split; [reflexivity|].
  destruct (shr_nat (Zpos m) (Pos.to_nat p) false false) as [Hm Hr]; [lia|].
  rewrite positive_nat_Z in Hm. split; [exact Hm|].
  destruct (Pos2Nat.is_succ p) as [j Hj].
  assert (Z.of_nat j = Zpos p - 1) as Hz.
  { rewrite <- (positive_nat_Z p), Hj. lia. }
  rewrite (Hr j Hj), Hz. reflexivity.
Qed.

Lemma round_nearest_even_shr (x : shr_record) :
  let m2 := round_nearest_even (shr_m x) (loc_of_shr_record x) in
  shr_m x <= m2 <= shr_m x + 1 /\
  (shr_r x = false -> m2 = shr_m x) /\
  (shr_r x = true -> Z.odd (shr_m x) = true -> m2 = shr_m x + 1).
Proof.
  destruct x as [m [|] [|]];
    cbn [shr_m shr_r loc_of_shr_record round_nearest_even];
    rewrite <- ?Z.negb_odd; destruct (Z.odd m); cbn [negb];
    repeat split; intros; try discriminate; lia.
Qed.

Lemma shr_fexp_second (m2 n : Z) :
  1 <= n -> 2 ^ 52 <= m2 <= 2 ^ 53 ->
  (m2 < 2 ^ 53 ->
   shr_fexp 53 1024 m2 n loc_Exact = (Build_shr_record m2 false false, n)) /\
  (m2 = 2 ^ 53 ->
   shr_fexp 53 1024 m2 n loc_Exact
   = (Build_shr_record (2 ^ 52) false false, n + 1)).
Proof.
  intros Hn Hm. split.
  - intros Hlt. destruct m2 as [|q|q]; try (cbn in Hm; lia).
    unfold shr_fexp. cbn [Zdigits2 shr_record_of_loc].
    rewrite (digits2_pos_unique q 53) by (cbn in *; lia).
    assert (fexp 53 1024 (53 + n) - n = 0) as Hf
      by (unfold fexp, SpecFloat.emin; lia).
    rewrite Hf. reflexivity.
  - intros ->. unfold shr_fexp.
    change (Zdigits2 (2 ^ 53)) with 54.
    assert (fexp 53 1024 (54 + n) - n = 1) as Hf
      by (unfold fexp, SpecFloat.emin; lia).
    rewrite Hf. reflexivity.
Qed.

(** What rounding gives for a mantissa of 53 + p digits: the top 53 bits,
    raised by one when the next bit is set and they do not stay even. *)
Lemma binary_round_big_form (s : bool) (m p : positive) :
  Zpos (digits2_pos m) = 53 + Zpos p ->
  let top := Zpos m / 2 ^ Zpos p in
  let next := Z.odd (Zpos m / 2 ^ (Zpos p - 1)) in
  2 ^ 52 <= top < 2 ^ 53 /\
  (top = 2 ^ 53 - 1 -> next = true ->
   binary_round 53 1024 s m 0
   = if Zpos p + 1 <=? 971
     then S754_finite s 4503599627370496 (Zpos p + 1)
     else S754_infinity s) /\
  ((top = 2 ^ 53 - 1 -> next = false) ->
   exists q,
     Zpos (digits2_pos q) = 53 /\
     binary_round 53 1024 s m 0
     = if Zpos p <=? 971 then S754_finite s q (Zpos p) else S754_infinity s).
Proof.
  intros Hd top next.
  pose proof (digits2_pos_bounds m) as [Dlo Dhi]. rewrite Hd in Dlo, Dhi.
  replace (53 + Zpos p - 1) with (52 + Zpos p) in Dlo by lia.
  rewrite Z.pow_add_r in Dlo, Dhi by lia.
  assert (0 < 2 ^ Zpos p) as HP by (apply Z.pow_pos_nonneg; lia).
  assert (2 ^ 52 <= top < 2 ^ 53) as Htop.
  { unfold top. split;
      [apply Z.div_le_lower_bound | apply Z.div_lt_upper_bound]; lia. }
  split; [exact Htop|].
  unfold binary_round, shl_align.
  assert (fexp 53 1024 (Zpos (digits2_pos m) + 0) - 0 = Zpos p) as Hf
    by (unfold fexp, SpecFloat.emin; lia).
  rewrite Hf. unfold binary_round_aux.
  destruct (shr_fexp_big m p Hd) as (x & Ex & Hm1 & Hr). rewrite Ex.
  destruct (round_nearest_even_shr x) as (Hrange & Hstay & Hup).
  cbn zeta in Hrange, Hstay, Hup.
  fold top in Hm1. fold next in Hr. rewrite Hm1 in *. rewrite Hr in *.
  set (m2 := round_nearest_even top (loc_of_shr_record x)) in *.
  destruct (shr_fexp_second m2 (Zpos p)) as [Hno Hcarry]; [lia | lia |].
  split.
  - intros Etop Enext.
    assert (m2 = 2 ^ 53) as E2.
    { rewrite Hup; [lia | exact Enext | rewrite Etop; reflexivity]. }
    rewrite (Hcarry E2). reflexivity.
  - intros Hnot.
    assert (m2 < 2 ^ 53) as E2.
    { destruct next.
      - assert (top <> 2 ^ 53 - 1) by (intros E; specialize (Hnot E); discriminate).
        lia.
      - rewrite Hstay by reflexivity. lia. }
    rewrite (Hno E2). cbn [shr_m].
    destruct m2 as [|q|q]; try lia.
    exists q. split; [|reflexivity].
    apply digits2_pos_unique. change (53 - 1) with 52. lia.
Qed.

Lemma bounded_53 (q : positive) (e : Z) :
  Zpos (digits2_pos q) = 53 -> -1074 <= e <= 971 ->
  bounded 53 1024 q e = true.
Proof.
  intros Hd He. unfold bounded, canonical_mantissa. rewrite Hd.
  apply andb_true_intro. split; [apply Z.eqb_eq | apply Z.leb_le];
    unfold fexp, SpecFloat.emin; lia.
Qed.

Lemma top_bits_at_the_limit (M : Z) :
  0 <= M < 2 ^ 1024 ->
  (M / 2 ^ 971 = 2 ^ 53 - 1 /\ Z.odd (M / 2 ^ 970) = true)
  <-> 2 ^ 1024 - 2 ^ 970 <= M.
Proof.
  intros HM.
  assert (M / 2 ^ 971 = M / 2 ^ 970 / 2) as Hdiv.
  { rewrite Z.div_div by lia. reflexivity. }
  rewrite Hdiv.
  pose proof (Z.div_mod M (2 ^ 970) ltac:(lia)) as Hdm.
  pose proof (Z.mod_pos_bound M (2 ^ 970) ltac:(lia)) as Hmod.
  set (t := M / 2 ^ 970) in *.
  pose proof (Z.div2_odd t) as Ht. rewrite Z.div2_div in Ht.
  split.
  - intros [Htop Hodd]. rewrite Hodd, Htop in Ht. cbn [Z.b2z] in Ht. lia.
  - intros HB.
    assert (t = 2 ^ 54 - 1) as -> by lia.
    split; reflexivity.
Qed.

Lemma binary_round_int (s : bool) (m : positive) :
  (Zpos m < 2 ^ 1024 - 2 ^ 970 ->
   exists q e,
     binary_round 53 1024 s m 0 = S754_finite s q e /\
     bounded 53 1024 q e = true) /\
  (2 ^ 1024 - 2 ^ 970 <= Zpos m ->
   binary_round 53 1024 s m 0 = S754_infinity s).
Proof.
  pose proof (digits2_pos_bounds m) as [Dlo Dhi].
  destruct (Z.le_gt_cases (Zpos (digits2_pos m)) 53) as [Hd|Hd].
  { split; [intros _; apply binary_round_small; exact Hd|].
    intros HB. exfalso.
    assert (2 ^ Zpos (digits2_pos m) <= 2 ^ 53)
      by (apply Z.pow_le_mono_r; lia).
    lia. }
  destruct (Zpos (digits2_pos m) - 53) as [|p|p] eqn:Ep; try lia.
  assert (Zpos (digits2_pos m) = 53 + Zpos p) as Hdp by lia.
  destruct (binary_round_big_form s m p Hdp) as (Htop & Hcarry & Hplain).
  cbn zeta in Htop, Hcarry, Hplain.
  rewrite Hdp in Dlo, Dhi.
  replace (53 + Zpos p - 1) with (52 + Zpos p) in Dlo by lia.
  rewrite Z.pow_add_r in Dlo, Dhi by lia.
  destruct (Z.lt_trichotomy (Zpos p) 971) as [Hp|[Hp|Hp]].
  - (* at most 1023 digits: below the limit, and finite *)
    assert (2 ^ Zpos p <= 2 ^ 970) by (apply Z.pow_le_mono_r; lia).
    split; [intros _ | intros HB; exfalso; lia].
    destruct (Z.eq_dec (Zpos m / 2 ^ Zpos p) (2 ^ 53 - 1)) as [Et|Et];
      [destruct (Z.odd (Zpos m / 2 ^ (Zpos p - 1))) eqn:En|].
    + rewrite (Hcarry Et eq_refl).
      destruct (Z.leb_spec (Zpos p + 1) 971); [|lia].
      do 2 eexists. split; [reflexivity|].
      apply bounded_53; [reflexivity | lia].
    + destruct Hplain as (q & Hq & ->); [reflexivity|].
      destruct (Z.leb_spec (Zpos p) 971); [|lia].
      do 2 eexists. split; [reflexivity|].
      apply bounded_53; [exact Hq | lia].
    + destruct Hplain as (q & Hq & ->); [intros E; contradiction|].
      destruct (Z.leb_spec (Zpos p) 971); [|lia].
      do 2 eexists. split; [reflexivity|].
      apply bounded_53; [exact Hq | lia].
  - (* 1024 digits: the limit lies here *)
    rewrite Hp in *. change (971 - 1) with 970 in *.
    assert (0 <= Zpos m < 2 ^ 1024) as HM by lia.
    pose proof (top_bits_at_the_limit (Zpos m) HM) as Hlimit.
    split.
    + intros Hlt.
      destruct Hplain as (q & Hq & ->).
      { intros Et. destruct (Z.odd (Zpos m / 2 ^ 970)) eqn:En;
          [|reflexivity].
        exfalso. apply (Z.lt_irrefl (Zpos m)).
        eapply Z.lt_le_trans; [exact Hlt|]. apply Hlimit. split; reflexivity
          || assumption. }
      do 2 eexists. split; [reflexivity|].
      apply bounded_53; [exact Hq | lia].
    + intros HB. apply Hlimit in HB. destruct HB as [Et En].
      rewrite (Hcarry Et En). reflexivity.
  - (* 1025 digits or more: above the limit, and infinite *)
    assert (2 ^ 972 <= 2 ^ Zpos p) by (apply Z.pow_le_mono_r; lia).
    split; [intros Hlt; exfalso; lia | intros _].
    destruct (Z.eq_dec (Zpos m / 2 ^ Zpos p) (2 ^ 53 - 1)) as [Et|Et];
      [destruct (Z.odd (Zpos m / 2 ^ (Zpos p - 1))) eqn:En|].
    + rewrite (Hcarry Et eq_refl).
      destruct (Z.leb_spec (Zpos p + 1) 971); [lia | reflexivity].
    + destruct Hplain as (q & Hq & ->); [reflexivity|].
      destruct (Z.leb_spec (Zpos p) 971); [lia | reflexivity].
    + destruct Hplain as (q & Hq & ->); [intros E; contradiction|].
      destruct (Z.leb_spec (Zpos p) 971); [lia | reflexivity].
Qed.

Lemma finite_is_not_infinity (s : bool) (q : positive) (e : Z) :
  bounded 53 1024 q e = true ->
  PrimFloat.is_infinity (SF2Prim (S754_finite s q e)) = false.
Proof.
  intros Hb. unfold PrimFloat.is_infinity.
  rewrite FloatAxioms.eqb_spec, abs_spec, Prim2SF_SF2Prim by exact Hb.
  reflexivity.
Qed.

(** The conversion succeeds exactly below 2^1024 - 2^970 in absolute
    value. *)
Lemma float_of_int_range (z : Z) :
  (Z.abs z < 2 ^ 1024 - 2 ^ 970 ->
   Fragments.float_of_int z
   = Ok (SF2Prim (binary_normalize prec emax z 0 false))) /\
  (2 ^ 1024 - 2 ^ 970 <= Z.abs z ->
   Fragments.float_of_int z = Raise OverflowError).
Proof.
  unfold Fragments.float_of_int. cbv zeta.
  destruct z as [|m|m]; cbn [binary_normalize Z.abs].
  - split; [reflexivity | intros H; exfalso; lia].
  - change prec with 53. change emax with 1024.
    destruct (binary_round_int false m) as [Hfin Hinf]. split.
    + intros Hlt. destruct (Hfin Hlt) as (q & e & -> & Hb).
      rewrite finite_is_not_infinity by exact Hb. reflexivity.
    + intros Hge. rewrite (Hinf Hge). reflexivity.
  - change prec with 53. change emax with 1024.
    destruct (binary_round_int true m) as [Hfin Hinf]. split.
    + intros Hlt. destruct (Hfin Hlt) as (q & e & -> & Hb).
      rewrite finite_is_not_infinity by exact Hb. reflexivity.
    + intros Hge. rewrite (Hinf Hge). reflexivity.
Qed.

(** ** The examples, pair by pair *)

(** C1: [bad__get_loan_limit] and [good__get_loan_limit] return the same
    value on every person record. *)
Theorem loan_limit_bad_eq_good (p : Consolidate.person) :
  Consolidate.bad__get_loan_limit p = Consolidate.good__get_loan_limit p.
Proof.
  unfold Consolidate.bad__get_loan_limit, Consolidate.good__get_loan_limit,
    Consolidate.is_eligible_for_loan.
  destruct (Consolidate.age p >=? 70); [reflexivity|].
  destruct (Consolidate.income p <=? 1000); [reflexivity|].
  destruct (String.eqb (Consolidate.gender p) "m"); reflexivity.
Qed.

(** C2: [is_eligible_for_loan] answers [True] exactly for a person under 70
    who earns more than 1000 and whose gender is not ['m'], and
    [good__get_loan_limit] is 100 for an eligible person and 0 otherwise. *)
Theorem is_eligible_for_loan_iff (p : Consolidate.person) :
  (Consolidate.is_eligible_for_loan p = true <->
   Consolidate.age p < 70 /\
   Consolidate.income p > 1000 /\
   Consolidate.gender p <> "m"%string) /\
  Consolidate.good__get_loan_limit p =
    (if Consolidate.is_eligible_for_loan p then 100 else 0).
Proof.
  split; [|reflexivity].
  unfold Consolidate.is_eligible_for_loan.
  destruct (Z.geb_spec (Consolidate.age p) 70) as [Ha|Ha].
  { split; [discriminate|]. intros (H & _). lia. }
  destruct (Z.leb_spec (Consolidate.income p) 1000) as [Hi|Hi].
  { split; [discriminate|]. intros (_ & H & _). lia. }
  destruct (String.eqb_spec (Consolidate.gender p) "m") as [Hg|Hg].
  { split; [discriminate|]. intros (_ & _ & H). contradiction. }
  split; [intros _|reflexivity].
  repeat split; [lia | lia | exact Hg].
Qed.

(** C3: [check_if_date_valid] computes the condition that the bad flow
    tests in line, so both flows print the same lines on every date, in
    the functional model and as syntax under the interpreter; on the
    sample date 2024-12-15 each prints 'date is valid'. *)
Theorem check_if_date_valid_decomposes (date : Decompose.datetime) :
  Decompose.check_if_date_valid date = Decompose.inline_condition date /\
  Decompose.bad_flow date = Decompose.good_flow date /\
  (forall w : Ast.world,
     Ast.exec_block Notebook.enough Notebook.notebook Notebook.cell1_bad_flow
       [("date"%string, Notebook.date_value date)] w
     = Ast.exec_block Notebook.enough Notebook.notebook
         Notebook.cell1_good_flow
         [("date"%string, Notebook.date_value date)] w) /\
  Decompose.bad_flow Decompose.sample_date = ["date is valid"%string] /\
  Decompose.good_flow Decompose.sample_date = ["date is valid"%string].
Proof.
  split; [reflexivity|]. split; [reflexivity|].
  split; [|split; reflexivity].
  intros w. rewrite cell1_bad_flow_prints, cell1_good_flow_prints.
  reflexivity.
Qed.

(** The guard clauses, one at a time: a guard that returns hides the rest
    of the block, one that does not hands over to it. *)
Lemma seq_guard {World : Type} (c : GuardClauses.M World bool) (v : Z)
    (rest : GuardClauses.block World) (w : World) :
  GuardClauses.seq
    (GuardClauses.if_ c (GuardClauses.return_ v) GuardClauses.pass) rest w =
  GuardClauses.if_ c (GuardClauses.return_ v) rest w.
Proof.
  unfold GuardClauses.seq, GuardClauses.if_, GuardClauses.bind.
  destruct (c w) as [[|] w']; reflexivity.
Qed.

Lemma if_ext {World : Type} (c : GuardClauses.M World bool)
    (t e e' : GuardClauses.block World) (w : World) :
  (forall w', e w' = e' w') ->
  GuardClauses.if_ c t e w = GuardClauses.if_ c t e' w.
Proof.
  intros He. unfold GuardClauses.if_, GuardClauses.bind.
  destruct (c w) as [[|] w']; [reflexivity | apply He].
Qed.

Lemma def_ext {World : Type} (b b' : GuardClauses.block World) (w : World) :
  (forall w', b w' = b' w') ->
  GuardClauses.def b w = GuardClauses.def b' w.
Proof.
  intros Hb. unfold GuardClauses.def, GuardClauses.bind.
  rewrite Hb. reflexivity.
Qed.

(** C4: whatever the four methods do and answer, the nested and the
    guard-clause versions return the same value (and leave the same
    world behind), also when every answer is [False]. *)
Theorem loan_repayment_due_bad_eq_good {World : Type}
    (p : GuardClauses.person World) (w : World) :
  GuardClauses.bad__loan_repayment_due p w =
  GuardClauses.good__loan_repayment_due p w.
Proof.
  unfold GuardClauses.bad__loan_repayment_due,
    GuardClauses.good__loan_repayment_due.
  apply def_ext. intros w0.
  rewrite seq_guard. apply if_ext. intros w1.
  rewrite seq_guard. apply if_ext. intros w2.
  rewrite seq_guard. reflexivity.
Qed.

Example price_discounted : Fragments.get_price 10 0.8%float = Ok 8%float.
Proof. reflexivity. Qed.

Example price_full : Fragments.get_price 10 1.0%float = Ok 10%float.
Proof. reflexivity. Qed.

(** C5: for every drawn value the two flows end with the same [mult] and
    the same [price], 8.0 under a discount and 10.0 otherwise. *)
Theorem flows_same_mult_and_price (val : Z) :
  Fragments.bad_flow val = Fragments.good_flow val /\
  Fragments.bad_flow val =
    (if Fragments.is_discounted val then (0.8%float, Ok 8.0%float)
     else (1.0%float, Ok 10.0%float)).
Proof.
  unfold Fragments.bad_flow, Fragments.good_flow.
  destruct (Fragments.is_discounted val); split; reflexivity.
Qed.

(** C6: a [NullCustomer] carries the default that the null check encoded:
    [good__get_bill] on it is 0, which is [bad__get_bill(None)]; on every
    instance both functions return its [bill], 123 for a fresh
    [Customer]. *)
Theorem null_customer_is_default :
  NullObject.good__get_bill (Some NullObject.new_NullCustomer) = Ok 0 /\
  NullObject.bad__get_bill None = Ok 0 /\
  (forall c : NullObject.instance,
     NullObject.good__get_bill (Some c) = Ok (NullObject.bill c) /\
     NullObject.bad__get_bill (Some c) = Ok (NullObject.bill c)) /\
  NullObject.bill NullObject.new_Customer = 123 /\
  NullObject.cell_value = (Ok 123, Ok 123).
Proof.
  repeat split.
Qed.

(** C7: each of the ten functions is free of loops, calls only functions
    defined before it, and so runs to completion on every input: a date,
    a person record, a person answering four booleans, an integer and a
    float, a customer or [None]; the top-level lines of the cells run to
    their end. *)
Theorem every_function_halts :
  map fst (Ast.functions Notebook.notebook) =
    [ "check_if_date_valid"; "bad__get_loan_limit"; "is_eligible_for_loan"
    ; "good__get_loan_limit"; "is_discounted"; "get_price"
    ; "bad__loan_repayment_due"; "good__loan_repayment_due"
    ; "bad__get_bill"; "good__get_bill" ]%string /\
  forallb (fun f => forallb Ast.loop_free (Ast.body (snd f)))
    (Ast.functions Notebook.notebook) = true /\
  Ast.defined_before_use [] (Ast.functions Notebook.notebook) = true /\
  (forall d, Notebook.halts "check_if_date_valid" [Notebook.date_value d]) /\
  (forall p,
     Notebook.halts "bad__get_loan_limit" [Notebook.person_value p]) /\
  (forall p,
     Notebook.halts "is_eligible_for_loan" [Notebook.person_value p]) /\
  (forall p,
     Notebook.halts "good__get_loan_limit" [Notebook.person_value p]) /\
  Notebook.halts "is_discounted" [] /\
  (forall base mult,
     Notebook.halts "get_price" [Ast.VInt base; Ast.VFloat mult]) /\
  (forall d v r n,
     Notebook.halts "bad__loan_repayment_due"
       [Notebook.debtor_value d v r n]) /\
  (forall d v r n,
     Notebook.halts "good__loan_repayment_due"
       [Notebook.debtor_value d v r n]) /\
  (forall c, Notebook.halts "bad__get_bill" [Notebook.customer_value c]) /\
  (forall c, Notebook.halts "good__get_bill" [Notebook.customer_value c]) /\
  Notebook.runs_normally Notebook.cell1 /\
  Notebook.runs_normally Notebook.cell3_bad_flow /\
  Notebook.runs_normally Notebook.cell3_good_flow /\
  Notebook.runs_normally Notebook.cell5.
Proof.
  split; [reflexivity|]. split; [reflexivity|]. split; [reflexivity|].
  repeat split; intros; intro w.
  - left. rewrite call_check_if_date_valid. eauto.
  - left. rewrite call_bad__get_loan_limit. eauto.
  - left. rewrite call_is_eligible_for_loan. eauto.
  - left. rewrite call_good__get_loan_limit. eauto.
  - left. rewrite call_is_discounted. eauto.
  - rewrite call_get_price.
    destruct (Fragments.get_price base mult); cbn; eauto.
  - left. rewrite call_bad__loan_repayment_due. eauto.
  - left. rewrite call_good__loan_repayment_due. eauto.
  - rewrite call_bad__get_bill.
    destruct (NullObject.bad__get_bill c); cbn; eauto.
  - rewrite call_good__get_bill.
    destruct (NullObject.good__get_bill c); cbn; eauto.
  - destruct (cell1_prints w) as [env H]. rewrite H. eauto.
  - rewrite cell3_bad_flow_assigns. eauto.
  - rewrite cell3_good_flow_assigns. eauto.
  - rewrite cell5_assigns. eauto.
Qed.




(** C9: at [None] the pair disagrees, [bad__get_bill] returns 0 and
    [good__get_bill] raises [AttributeError]; the two agree exactly on
    the arguments that are instances. *)
Theorem get_bill_agree_iff_instance :
  NullObject.bad__get_bill None = Ok 0 /\
  NullObject.good__get_bill None = Raise AttributeError /\
  (forall customer : option NullObject.instance,
     NullObject.bad__get_bill customer = NullObject.good__get_bill customer
     <-> customer <> None).
Proof.
  split; [reflexivity|]. split; [reflexivity|].
  intros [c|]; simpl.
  - split; [discriminate | reflexivity].
  - split; [discriminate | intros H; contradiction H; reflexivity].
Qed.

(** One method call whose answer is known to be [False]. *)
Ltac answer_false H w :=
  let b := fresh "b" in
  let w' := fresh "w" in
  let E := fresh "E" in
  pose proof (H w) as E;
  match type of E with
  | fst (?m w) = false =>
      destruct (m w) as [b w']; cbn [fst] in E; subst b; cbn beta iota
  end.

(** C10: when each of the four methods answers [False], both versions
    reach their last line and return [None], not an amount. *)
Theorem loan_repayment_due_none {World : Type}
    (p : GuardClauses.person World) (w : World)
    (Hdead : forall w', fst (GuardClauses.is_dead p w') = false)
    (Hdivorced : forall w', fst (GuardClauses.is_divorced p w') = false)
    (Hretired : forall w', fst (GuardClauses.is_retired p w') = false)
    (Hidle : forall w', fst (GuardClauses.is_not_working p w') = false) :
  fst (GuardClauses.bad__loan_repayment_due p w) = None /\
  fst (GuardClauses.good__loan_repayment_due p w) = None.
Proof.
  split.
  - unfold GuardClauses.bad__loan_repayment_due, GuardClauses.def,
      GuardClauses.if_, GuardClauses.bind, GuardClauses.return_,
      GuardClauses.pass, GuardClauses.ret.
    answer_false Hdead w.
    match goal with |- context [GuardClauses.is_divorced p ?x] =>
      answer_false Hdivorced x end.
    match goal with |- context [GuardClauses.is_retired p ?x] =>
      answer_false Hretired x end.
    match goal with |- context [GuardClauses.is_not_working p ?x] =>
      answer_false Hidle x end.
    reflexivity.
  - unfold GuardClauses.good__loan_repayment_due, GuardClauses.def,
      GuardClauses.seq, GuardClauses.if_, GuardClauses.bind,
      GuardClauses.return_, GuardClauses.pass, GuardClauses.ret.
    answer_false Hdead w.
    match goal with |- context [GuardClauses.is_divorced p ?x] =>
      answer_false Hdivorced x end.
    match goal with |- context [GuardClauses.is_retired p ?x] =>
      answer_false Hretired x end.
    match goal with |- context [GuardClauses.is_not_working p ?x] =>
      answer_false Hidle x end.
    reflexivity.
Qed.

Lemma loan_repayment_due_none_witness :
  fst (GuardClauses.bad__loan_repayment_due
         (GuardClauses.constant_person false false false false) tt) = None /\
  fst (GuardClauses.good__loan_repayment_due
         (GuardClauses.constant_person false false false false) tt) = None.
Proof.
  apply (loan_repayment_due_none
           (GuardClauses.constant_person false false false false) tt);
    intros w'; reflexivity.
Defined.

(** ** Further properties of the examples *)

(** X1: the loan limit never falls when the income rises and the age
    falls, the gender staying the same; this holds for both versions. *)
Theorem loan_limit_monotone (p q : Consolidate.person)
    (Hage : Consolidate.age q <= Consolidate.age p)
    (Hincome : Consolidate.income p <= Consolidate.income q)
    (Hgender : Consolidate.gender p = Consolidate.gender q) :
  Consolidate.bad__get_loan_limit p <= Consolidate.bad__get_loan_limit q /\
  Consolidate.good__get_loan_limit p <= Consolidate.good__get_loan_limit q.
Proof.
  unfold Consolidate.bad__get_loan_limit, Consolidate.good__get_loan_limit,
    Consolidate.is_eligible_for_loan.
  rewrite Hgender.
  destruct (Z.geb_spec (Consolidate.age p) 70),
    (Z.geb_spec (Consolidate.age q) 70),
    (Z.leb_spec (Consolidate.income p) 1000),
    (Z.leb_spec (Consolidate.income q) 1000),
    (String.eqb (Consolidate.gender q) "m"); split; lia.
Qed.

Lemma loan_limit_monotone_witness :
  Consolidate.bad__get_loan_limit (Consolidate.mk_person 70 500 "f")
  <= Consolidate.bad__get_loan_limit (Consolidate.mk_person 30 2000 "f") /\
  Consolidate.good__get_loan_limit (Consolidate.mk_person 70 500 "f")
  <= Consolidate.good__get_loan_limit (Consolidate.mk_person 30 2000 "f").
Proof.
  apply (loan_limit_monotone (Consolidate.mk_person 70 500 "f")
           (Consolidate.mk_person 30 2000 "f")).
  - simpl. lia.
  - simpl. lia.
  - reflexivity.
Defined.

(** X2: a date is valid exactly when it lies in a December of 2023 or
    later; the day and the time play no part, and each flow prints its
    one line exactly then. *)
Theorem check_if_date_valid_iff (date : Decompose.datetime) :
  (Decompose.check_if_date_valid date = true <->
   Decompose.month date = 12 /\ 2023 <= Decompose.year date) /\
  (Decompose.good_flow date = ["date is valid"%string] <->
   Decompose.month date = 12 /\ 2023 <= Decompose.year date) /\
  (Decompose.good_flow date = [] <->
   Decompose.month date <> 12 \/ Decompose.year date < 2023).
Proof.
  unfold Decompose.good_flow, Decompose.check_if_date_valid.
  destruct (Z.eqb_spec (Decompose.month date) 12) as [Hm|Hm];
    destruct (Z.geb_spec (Decompose.year date) 2023) as [Hy|Hy];
    cbn [andb]; repeat split; intros; try discriminate; try lia;
    try tauto.
Qed.

(** Runs one pending method call of a guard-clause function both ways. *)
Ltac ask_next :=
  match goal with
  | |- context [GuardClauses.is_dead ?p ?w] =>
      destruct (GuardClauses.is_dead p w) as [[|] ?]
  | |- context [GuardClauses.is_divorced ?p ?w] =>
      destruct (GuardClauses.is_divorced p w) as [[|] ?]
  | |- context [GuardClauses.is_retired ?p ?w] =>
      destruct (GuardClauses.is_retired p w) as [[|] ?]
  | |- context [GuardClauses.is_not_working ?p ?w] =>
      destruct (GuardClauses.is_not_working p w) as [[|] ?]
  end; cbn.

Ltac open_guards :=
  unfold GuardClauses.bad__loan_repayment_due,
    GuardClauses.good__loan_repayment_due, GuardClauses.def,
    GuardClauses.seq, GuardClauses.if_, GuardClauses.bind,
    GuardClauses.return_, GuardClauses.pass, GuardClauses.ret;
  cbn.

(** X3: once [is_dead] answers [True], both versions return 0 and ask
    nothing more: the state is the one [is_dead] left. *)
Theorem dead_ends_the_questions {World : Type}
    (p : GuardClauses.person World) (w w' : World)
    (Hdead : GuardClauses.is_dead p w = (true, w')) :
  GuardClauses.bad__loan_repayment_due p w = (Some 0, w') /\
  GuardClauses.good__loan_repayment_due p w = (Some 0, w').
Proof.
  open_guards. rewrite Hdead. split; reflexivity.
Qed.

Lemma dead_ends_the_questions_witness :
  GuardClauses.bad__loan_repayment_due
    (Further.counted_person
       (GuardClauses.constant_person true true true true)) (tt, 0%nat)
  = (Some 0, (tt, 1%nat)) /\
  GuardClauses.good__loan_repayment_due
    (Further.counted_person
       (GuardClauses.constant_person true true true true)) (tt, 0%nat)
  = (Some 0, (tt, 1%nat)).
Proof.
  apply (dead_ends_the_questions
           (Further.counted_person
              (GuardClauses.constant_person true true true true))
           (tt, 0%nat) (tt, 1%nat)).
  reflexivity.
Defined.

(** X4: whatever the methods do, the amount due is 0, 100 or 200, or
    there is none. *)
Theorem loan_repayment_due_range {World : Type}
    (p : GuardClauses.person World) (w : World) :
  In (fst (GuardClauses.bad__loan_repayment_due p w))
    [Some 0; Some 100; Some 200; None] /\
  In (fst (GuardClauses.good__loan_repayment_due p w))
    [Some 0; Some 100; Some 200; None].
Proof.
  open_guards. split; repeat ask_next; cbn; tauto.
Qed.

(** X5: for methods that only answer, the amount due follows one table:
    0 for the dead, else 100 for the divorced or retired, else 200 for
    those not working, else none. *)
Theorem loan_repayment_due_table (d v r n : bool) :
  fst (GuardClauses.bad__loan_repayment_due
         (GuardClauses.constant_person d v r n) tt)
  = (if d then Some 0
     else if v || r then Some 100
     else if n then Some 200
     else None) /\
  fst (GuardClauses.good__loan_repayment_due
         (GuardClauses.constant_person d v r n) tt)
  = (if d then Some 0
     else if v || r then Some 100
     else if n then Some 200
     else None).
Proof.
  destruct d, v, r, n; split; reflexivity.
Qed.

(** X6: with the method calls tallied, each version asks at least one
    and at most four questions, both ask equally many, and the tally
    changes neither the amount nor the state the methods leave. *)
Theorem loan_repayment_due_questions {World : Type}
    (p : GuardClauses.person World) (w : World) (c : nat) :
  let bad :=
    GuardClauses.bad__loan_repayment_due (Further.counted_person p) (w, c) in
  let good :=
    GuardClauses.good__loan_repayment_due (Further.counted_person p) (w, c) in
  (c < snd (snd bad) <= c + 4)%nat /\
  snd (snd good) = snd (snd bad) /\
  (fst bad, fst (snd bad)) = GuardClauses.bad__loan_repayment_due p w /\
  (fst good, fst (snd good)) = GuardClauses.good__loan_repayment_due p w.
Proof.
  open_guards. unfold Further.counted. cbn.
  repeat ask_next; repeat split; lia.
Qed.

(** Splits on whatever the interpreter is waiting for: an attribute or
    method that may be missing, the kind of a value, a test. *)
Ltac case_pending :=
  repeat (match goal with
          | |- context [match ?x with _ => _ end] => destruct x
          end;
          cbn -[Z.geb Z.leb Z.eqb Z.gtb Z.add Z.sub Z.mul Z.modulo
                PrimFloat.mul PrimFloat.eqb Fragments.float_of_int];
          try reflexivity).

(** X7: [check_if_date_valid] raises [AttributeError] on [None] and on
    an object with neither an attribute nor a method [month]; it reads
    [year] only when [month] is 12, so an object of another month needs
    no [year] to get [False], and so does one whose [month] is a method;
    in December a missing [year] raises [AttributeError] and a method
    [year] raises [TypeError]. *)
Theorem check_if_date_valid_missing_attributes (cls : string)
    (attrs : list (string * Ast.value)) (answers : list (string * bool))
    (w : Ast.world) :
  let r :=
    Ast.call Notebook.enough Notebook.notebook "check_if_date_valid"
      [Ast.VObj cls attrs answers] w in
  Ast.call Notebook.enough Notebook.notebook "check_if_date_valid"
    [Ast.VNone] w = Ast.Raised AttributeError w /\
  (Ast.assoc "month" attrs = None -> Ast.assoc "month" answers = None ->
   r = Ast.Raised AttributeError w) /\
  (forall m, Ast.assoc "month" attrs = Some (Ast.VInt m) -> m <> 12 ->
   r = Ast.Done (Ast.VBool false) w) /\
  (forall b, Ast.assoc "month" attrs = None ->
   Ast.assoc "month" answers = Some b ->
   r = Ast.Done (Ast.VBool false) w) /\
  (Ast.assoc "month" attrs = Some (Ast.VInt 12) ->
   Ast.assoc "year" attrs = None -> Ast.assoc "year" answers = None ->
   r = Ast.Raised AttributeError w) /\
  (forall b, Ast.assoc "month" attrs = Some (Ast.VInt 12) ->
   Ast.assoc "year" attrs = None -> Ast.assoc "year" answers = Some b ->
   r = Ast.Raised TypeError w).
Proof.
  run_call. split; [reflexivity|]. repeat split.
  - intros Hmonth Hmeth. rewrite Hmonth, Hmeth. reflexivity.
  - intros m Hmonth Hm. rewrite Hmonth. cbn -[Z.eqb].
    destruct (Z.eqb_spec m 12); [contradiction | reflexivity].
  - intros b Hmonth Hmeth. rewrite Hmonth, Hmeth. reflexivity.
  - intros Hmonth Hyear Hmeth. rewrite Hmonth. cbn.
    rewrite Hyear, Hmeth. reflexivity.
  - intros b Hmonth Hyear Hmeth. rewrite Hmonth. cbn.
    rewrite Hyear, Hmeth. reflexivity.
Qed.

Lemma check_if_date_valid_missing_attributes_witness :
  Ast.call Notebook.enough Notebook.notebook "check_if_date_valid"
    [Ast.VObj "date" [] []] (Ast.mk_world [] (fun _ => 0) 0)
  = Ast.Raised AttributeError (Ast.mk_world [] (fun _ => 0) 0) /\
  Ast.call Notebook.enough Notebook.notebook "check_if_date_valid"
    [Ast.VObj "date" [("month", Ast.VInt 11)] []]
    (Ast.mk_world [] (fun _ => 0) 0)
  = Ast.Done (Ast.VBool false) (Ast.mk_world [] (fun _ => 0) 0) /\
  Ast.call Notebook.enough Notebook.notebook "check_if_date_valid"
    [Ast.VObj "date" [] [("month", true)]]
    (Ast.mk_world [] (fun _ => 0) 0)
  = Ast.Done (Ast.VBool false) (Ast.mk_world [] (fun _ => 0) 0) /\
  Ast.call Notebook.enough Notebook.notebook "check_if_date_valid"
    [Ast.VObj "date" [("month", Ast.VInt 12)] []]
    (Ast.mk_world [] (fun _ => 0) 0)
  = Ast.Raised AttributeError (Ast.mk_world [] (fun _ => 0) 0) /\
  Ast.call Notebook.enough Notebook.notebook "check_if_date_valid"
    [Ast.VObj "date" [("month", Ast.VInt 12)] [("year", true)]]
    (Ast.mk_world [] (fun _ => 0) 0)
  = Ast.Raised TypeError (Ast.mk_world [] (fun _ => 0) 0).
Proof.
  split; [|split; [|split; [|split]]].
  - pose proof (check_if_date_valid_missing_attributes "date" [] []
                  (Ast.mk_world [] (fun _ => 0) 0)) as H.
    cbv zeta in H. destruct H as (_ & H & _).
    apply H; reflexivity.
  - pose proof (check_if_date_valid_missing_attributes "date"
                  [("month", Ast.VInt 11)] []
                  (Ast.mk_world [] (fun _ => 0) 0)) as H.
    cbv zeta in H. destruct H as (_ & _ & H & _).
    apply (H 11); [reflexivity | lia].
  - pose proof (check_if_date_valid_missing_attributes "date"
                  [] [("month", true)]
                  (Ast.mk_world [] (fun _ => 0) 0)) as H.
    cbv zeta in H. destruct H as (_ & _ & _ & H & _).
    apply (H true); reflexivity.
  - pose proof (check_if_date_valid_missing_attributes "date"
                  [("month", Ast.VInt 12)] []
                  (Ast.mk_world [] (fun _ => 0) 0)) as H.
    cbv zeta in H. destruct H as (_ & _ & _ & _ & H & _).
    apply H; reflexivity.
  - pose proof (check_if_date_valid_missing_attributes "date"
                  [("month", Ast.VInt 12)] [("year", true)]
                  (Ast.mk_world [] (fun _ => 0) 0)) as H.
    cbv zeta in H. destruct H as (_ & _ & _ & _ & _ & H).
    apply (H true); reflexivity.
Defined.

(** X8: the two loan-limit functions end alike on every argument, also
    on [None] and on objects that lack [age], [income] or [gender],
    where both raise the same [AttributeError] at the same attribute. *)
Theorem loan_limit_agree_on_every_value (v : Ast.value) (w : Ast.world) :
  Ast.call Notebook.enough Notebook.notebook "bad__get_loan_limit" [v] w
  = Ast.call Notebook.enough Notebook.notebook "good__get_loan_limit" [v] w.
Proof.
  run_call. case_pending.
Qed.

(** X9: both loan-limit functions read [age] first and stop there for a
    person of 70 or more: such an object gets 0 even without [income]
    and [gender]; an object with neither an attribute nor a method
    [age], or under 70 with no [income] at all, raises
    [AttributeError]; one whose [age] is a method raises [TypeError]. *)
Theorem loan_limit_missing_attributes (cls : string)
    (attrs : list (string * Ast.value)) (answers : list (string * bool))
    (w : Ast.world) :
  let bad :=
    Ast.call Notebook.enough Notebook.notebook "bad__get_loan_limit"
      [Ast.VObj cls attrs answers] w in
  let good :=
    Ast.call Notebook.enough Notebook.notebook "good__get_loan_limit"
      [Ast.VObj cls attrs answers] w in
  (Ast.assoc "age" attrs = None -> Ast.assoc "age" answers = None ->
   bad = Ast.Raised AttributeError w /\ good = Ast.Raised AttributeError w) /\
  (forall b, Ast.assoc "age" attrs = None ->
   Ast.assoc "age" answers = Some b ->
   bad = Ast.Raised TypeError w /\ good = Ast.Raised TypeError w) /\
  (forall a, Ast.assoc "age" attrs = Some (Ast.VInt a) -> 70 <= a ->
   bad = Ast.Done (Ast.VInt 0) w /\ good = Ast.Done (Ast.VInt 0) w) /\
  (forall a, Ast.assoc "age" attrs = Some (Ast.VInt a) -> a < 70 ->
   Ast.assoc "income" attrs = None -> Ast.assoc "income" answers = None ->
   bad = Ast.Raised AttributeError w /\ good = Ast.Raised AttributeError w).
Proof.
  run_call. split; [|split; [|split]].
  - intros Hage Hmeth. rewrite Hage, Hmeth. split; reflexivity.
  - intros b Hage Hmeth. rewrite Hage, Hmeth. split; reflexivity.
  - intros a Hage Hold. rewrite Hage. cbn -[Z.geb].
    destruct (Z.geb_spec a 70); [split; reflexivity | lia].
  - intros a Hage Hyoung Hincome Hmeth. rewrite Hage. cbn -[Z.geb].
    destruct (Z.geb_spec a 70); [lia|].
    rewrite Hincome, Hmeth. split; reflexivity.
Qed.

Lemma loan_limit_missing_attributes_witness :
  Ast.call Notebook.enough Notebook.notebook "bad__get_loan_limit"
    [Ast.VObj "person" [("income", Ast.VInt 5000)] []]
    (Ast.mk_world [] (fun _ => 0) 0)
  = Ast.Raised AttributeError (Ast.mk_world [] (fun _ => 0) 0) /\
  Ast.call Notebook.enough Notebook.notebook "bad__get_loan_limit"
    [Ast.VObj "person" [] [("age", true)]]
    (Ast.mk_world [] (fun _ => 0) 0)
  = Ast.Raised TypeError (Ast.mk_world [] (fun _ => 0) 0) /\
  Ast.call Notebook.enough Notebook.notebook "good__get_loan_limit"
    [Ast.VObj "person" [("age", Ast.VInt 80)] []]
    (Ast.mk_world [] (fun _ => 0) 0)
  = Ast.Done (Ast.VInt 0) (Ast.mk_world [] (fun _ => 0) 0) /\
  Ast.call Notebook.enough Notebook.notebook "bad__get_loan_limit"
    [Ast.VObj "person" [("age", Ast.VInt 30)] []]
    (Ast.mk_world [] (fun _ => 0) 0)
  = Ast.Raised AttributeError (Ast.mk_world [] (fun _ => 0) 0).
Proof.
  split; [|split; [|split]].
  - pose proof (loan_limit_missing_attributes "person"
                  [("income", Ast.VInt 5000)] []
                  (Ast.mk_world [] (fun _ => 0) 0)) as H.
    cbv zeta in H. destruct H as (H & _).
    apply H; reflexivity.
  - pose proof (loan_limit_missing_attributes "person"
                  [] [("age", true)]
                  (Ast.mk_world [] (fun _ => 0) 0)) as H.
    cbv zeta in H. destruct H as (_ & H & _).
    apply (H true); reflexivity.
  - pose proof (loan_limit_missing_attributes "person"
                  [("age", Ast.VInt 80)] []
                  (Ast.mk_world [] (fun _ => 0) 0)) as H.
    cbv zeta in H. destruct H as (_ & _ & H & _).
    apply (H 80); [reflexivity | lia].
  - pose proof (loan_limit_missing_attributes "person"
                  [("age", Ast.VInt 30)] []
                  (Ast.mk_world [] (fun _ => 0) 0)) as H.
    cbv zeta in H. destruct H as (_ & _ & _ & H).
    apply (H 30); [reflexivity | lia | reflexivity | reflexivity].
Defined.

(** X10: the nested and the guard-clause versions end alike on every
    argument, also on [None] and on objects that lack some of the four
    methods, where both raise [AttributeError] at the same call. *)
Theorem loan_repayment_due_agree_on_every_value (v : Ast.value)
    (w : Ast.world) :
  Ast.call Notebook.enough Notebook.notebook "bad__loan_repayment_due" [v] w
  = Ast.call Notebook.enough Notebook.notebook "good__loan_repayment_due"
      [v] w.
Proof.
  run_call. case_pending.
Qed.

(** X11: on any object the two [get_bill] functions end alike: with
    whatever the attribute [bill] holds; failing that with the bound
    method [bill] of its class; and with [AttributeError] when the
    object has neither. *)
Theorem get_bill_on_any_object (cls : string)
    (attrs : list (string * Ast.value)) (answers : list (string * bool))
    (w : Ast.world) :
  Ast.call Notebook.enough Notebook.notebook "bad__get_bill"
    [Ast.VObj cls attrs answers] w
  = Ast.call Notebook.enough Notebook.notebook "good__get_bill"
      [Ast.VObj cls attrs answers] w /\
  Ast.call Notebook.enough Notebook.notebook "good__get_bill"
    [Ast.VObj cls attrs answers] w
  = match Ast.assoc "bill" attrs, Ast.assoc "bill" answers with
    | Some b, _ => Ast.Done b w
    | None, Some m => Ast.Done (Ast.VMethod m) w
    | None, None => Ast.Raised AttributeError w
    end.
Proof.
  run_call.
  split; destruct (Ast.assoc "bill" attrs);
    try destruct (Ast.assoc "bill" answers); reflexivity.
Qed.

(** X12: a call of [is_discounted] takes exactly one value from the
    random source, prints nothing, and answers [True] for the draws 6
    to 10, that is for five of the ten residues of the raw value. *)
Theorem is_discounted_draws_once (w : Ast.world) :
  exists b : bool,
    Ast.call Notebook.enough Notebook.notebook "is_discounted" [] w
    = Ast.Done (Ast.VBool b)
        (Ast.mk_world (Ast.stdout w) (Ast.entropy w) (S (Ast.drawn w))) /\
    (b = true <-> 5 <= Ast.entropy w (Ast.drawn w) mod 10).
Proof.
  rewrite call_is_discounted.
  eexists. split; [reflexivity|].
  unfold Fragments.is_discounted, Ast.randint. cbn [fst].
  destruct (Z.gtb_spec (1 + Ast.entropy w (Ast.drawn w) mod (10 - 1 + 1)) 5)
    as [H|H]; change (10 - 1 + 1) with 10 in H;
    split; intros; try discriminate; try reflexivity; lia.
Qed.

(** X13: run as the cell runs them, the bad flow and then the good flow
    draw twice, and what the cell leaves in [mult] and [price] is what
    the second draw decides: the bad flow's assignments are overwritten. *)
Theorem cell3_keeps_the_second_draw (w : Ast.world) :
  let w1 := snd (Ast.randint 1 10 w) in
  let val2 := fst (Ast.randint 1 10 w1) in
  Ast.exec_block Notebook.enough Notebook.notebook Further.cell3 [] w
  = Ast.Done
      (Ast.Normal,
       [ ("mult"%string, Ast.VFloat (fst (Fragments.good_flow val2)))
       ; ("price"%string,
          Ast.VFloat (if Fragments.is_discounted val2 then 8.0 else 10.0)) ])
      (Ast.mk_world (Ast.stdout w) (Ast.entropy w) (S (S (Ast.drawn w)))).
Proof.
  assert (Fragments.float_of_int 10 = Ok 10%float) as Hten
    by reflexivity.
  run_call. unfold Fragments.good_flow, Fragments.is_discounted.
  repeat (first [ rewrite Hten
                | match goal with
                  | |- context [if ?b then _ else _] => destruct b
                  end ];
          run_call);
    reflexivity.
Qed.

(** X14: [get_price] converts [base] to binary64 before it multiplies,
    so it raises [OverflowError] exactly when [base] is 2^1024 - 2^970
    or more in absolute value, whatever [mult] is, and returns a float
    exactly below that; the last base that converts gives the largest
    finite float times [mult]. *)
Theorem get_price_overflow_bounds (base : Z) (mult : float) :
  (Fragments.get_price base mult = Raise OverflowError
   <-> 2 ^ 1024 - 2 ^ 970 <= Z.abs base) /\
  ((exists f, Fragments.get_price base mult = Ok f)
   <-> Z.abs base < 2 ^ 1024 - 2 ^ 970) /\
  Fragments.get_price (2 ^ 1024 - 2 ^ 970 - 1) mult
  = Ok (0x1.fffffffffffffp+1023 * mult)%float.
Proof.
  destruct (float_of_int_range base) as [Hfin Hinf].
  unfold Fragments.get_price.
  split; [|split].
  - split.
    + intros Hraise.
      destruct (Z.lt_ge_cases (Z.abs base) (2 ^ 1024 - 2 ^ 970)) as [Hlt|Hge];
        [|exact Hge].
      rewrite (Hfin Hlt) in Hraise. discriminate.
    + intros Hge. rewrite (Hinf Hge). reflexivity.
  - split.
    + intros [f Hok].
      destruct (Z.lt_ge_cases (Z.abs base) (2 ^ 1024 - 2 ^ 970)) as [Hlt|Hge];
        [exact Hlt|].
      rewrite (Hinf Hge) in Hok. discriminate.
    + intros Hlt. rewrite (Hfin Hlt). eauto.
  - assert (Fragments.float_of_int (2 ^ 1024 - 2 ^ 970 - 1)
            = Ok 0x1.fffffffffffffp+1023%float) as E
      by (vm_compute; reflexivity).
    rewrite E. reflexivity.
Qed.

(** X15: apart from [is_discounted], no function of the notebook prints
    or draws a random value: whatever it is given, and whether it
    returns or raises, the world after the call is the world before. *)
Theorem functions_leave_the_world (v v' : Ast.value) (w : Ast.world) :
  Further.leaves_world
    (Ast.call Notebook.enough Notebook.notebook "check_if_date_valid" [v] w)
    w /\
  Further.leaves_world
    (Ast.call Notebook.enough Notebook.notebook "bad__get_loan_limit" [v] w)
    w /\
  Further.leaves_world
    (Ast.call Notebook.enough Notebook.notebook "is_eligible_for_loan" [v] w)
    w /\
  Further.leaves_world
    (Ast.call Notebook.enough Notebook.notebook "good__get_loan_limit" [v] w)
    w /\
  Further.leaves_world
    (Ast.call Notebook.enough Notebook.notebook "get_price" [v; v'] w) w /\
  Further.leaves_world
    (Ast.call Notebook.enough Notebook.notebook "bad__loan_repayment_due"
       [v] w) w /\
  Further.leaves_world
    (Ast.call Notebook.enough Notebook.notebook "good__loan_repayment_due"
       [v] w) w /\
  Further.leaves_world
    (Ast.call Notebook.enough Notebook.notebook "bad__get_bill" [v] w) w /\
  Further.leaves_world
    (Ast.call Notebook.enough Notebook.notebook "good__get_bill" [v] w) w.
Proof.
  repeat split; run_call;
    repeat (match goal with
            | |- context [match ?x with _ => _ end] => destruct x
            end;
            cbn -[Z.geb Z.leb Z.eqb Z.gtb Z.add Z.sub Z.mul Z.modulo
                  PrimFloat.mul PrimFloat.eqb Fragments.float_of_int];
            try reflexivity; try exact I).
Qed.
